(** * JVM backend of the sandboxed code runner: staged execution and guard synthesis

    Shallow embedding of [app/libs/executors/jvm_executor.py].

    Python [str] values are Rocq strings whose characters stand for the code
    points 0 to 255; for dialect detection, where [str.lower] is applied to
    the guest source, the source is also modelled as a list of code points
    of any size (module [Wide]).  The library functions the executor calls ([str]
    methods, [str.format], [shlex.quote], [shlex.split]) are modelled first.
    The generator [setup_command] is a resumption: an inductive tree whose
    nodes are the yielded commands and whose branches are indexed by the
    result sent back.  The scratch directory is a finite map from paths to
    contents, threaded through the code that writes files; the directory is
    taken to exist and to be writable, so that opening a file for writing
    succeeds (the [OSError] of [open] is not modelled).  Exceptions are values of the type
    [exn].  What [jvm_executor.py] imports from the executor package is a
    parameter, or is modelled from the specification where it says so. *)

From Stdlib Require Import ZArith NArith Lia Bool Ascii String List.
From Stdlib Require Import DecimalString.
From stdpp Require Import base strings gmap.

Local Open Scope string_scope.

(** ** Python string operations used by the executor *)

Module PyStr.

(** [str.isspace] on code points up to 255: the C0 separators,
    the blank, NEL and the no-break space. *)
Definition isspace (c : ascii) : bool :=
  let n := N_of_ascii c in
  ((9 <=? n) && (n <=? 13) || (28 <=? n) && (n <=? 32)
   || (n =? 133) || (n =? 160))%N.

(** [s[:n]] *)
Fixpoint slice_to (n : nat) (s : string) : string :=
  match n, s with
  | S n', String c s' => String c (slice_to n' s')
  | _, _ => ""
  end.

(** [s.startswith(p)] *)
Fixpoint startswith (p s : string) : bool :=
  match p, s with
  | "", _ => true
  | String a p', String b s' => if (a =? b)%char then startswith p' s' else false
  | String _ _, "" => false
  end.

(** [sub in s] *)
Fixpoint contains (sub s : string) : bool :=
  startswith sub s ||
  match s with
  | "" => false
  | String _ s' => contains sub s'
  end.

Fixpoint lstrip (s : string) : string :=
  match s with
  | String c s' => if isspace c then lstrip s' else s
  | "" => ""
  end.

Fixpoint rstrip (s : string) : string :=
  match s with
  | "" => ""
  | String c s' =>
      match rstrip s' with
      | "" => if isspace c then "" else String c ""
      | r => String c r
      end
  end.

(** [s.strip()] *)
Definition strip (s : string) : string := rstrip (lstrip s).

(** [str.lower] on one code point up to 255: the ASCII capitals and the
    Latin-1 capitals (192..222 without the multiplication sign). *)
Definition lower_char (c : ascii) : ascii :=
  let n := N_of_ascii c in
  if ((65 <=? n) && (n <=? 90)
      || (192 <=? n) && (n <=? 222) && negb (n =? 215))%N
  then ascii_of_N (n + 32) else c.

Fixpoint lower (s : string) : string :=
  match s with
  | "" => ""
  | String c s' => String (lower_char c) (lower s')
  end.

(** [s.replace(old, new)] for a non-empty [old]: leftmost occurrences,
    not overlapping.  [skip] counts the characters of a matched [old] that
    are still to be dropped. *)
Fixpoint replace_go (old new : string) (skip : nat) (s : string) : string :=
  match s with
  | "" => ""
  | String c s' =>
      match skip with
      | S k => replace_go old new k s'
      | O =>
          if startswith old s
          then new +:+ replace_go old new (String.length old - 1) s'
          else String c (replace_go old new 0 s')
      end
  end.

Definition replace (old new s : string) : string := replace_go old new 0 s.

(** [str(n)] for an [int]. *)
Definition str_of_int (z : Z) : string := NilZero.string_of_int (Z.to_int z).

(** [sep.join(parts)] *)
Fixpoint join (sep : string) (parts : list string) : string :=
  match parts with
  | [] => ""
  | [p] => p
  | p :: rest => p +:+ sep +:+ join sep rest
  end.

End PyStr.

(** ** Exceptions *)

(** The exceptions the executor can meet: [CompileError] of the executor
    package, and those of [str.format] and [shlex.split]. *)
Inductive exn : Type :=
| CompileError (msg : string)
| ValueError (msg : string)
| KeyError (key : string)
| IndexError.

(** A computation that returns or raises. *)
Definition result (A : Type) : Type := exn + A.

Definition ret {A} (a : A) : result A := inr a.
Definition raise {A} (e : exn) : result A := inl e.
Definition bind {A B} (m : result A) (k : A -> result B) : result B :=
  match m with
  | inl e => inl e
  | inr a => k a
  end.

Notation "'try!' x ':=' m 'in' k" := (bind m (fun x => k))
  (at level 10, x name, m at level 100, k at level 200).

(** ** [str.format] with keyword arguments *)

Module PyFormat.

Definition is_digit (c : ascii) : bool :=
  let n := N_of_ascii c in ((48 <=? n) && (n <=? 57))%N.

Fixpoint all_digits (s : string) : bool :=
  match s with
  | "" => true
  | String c s' => is_digit c && all_digits s'
  end.

(** Characters that start a conversion, a format specification or an
    attribute or index access. *)
Definition is_special (c : ascii) : bool :=
  if (c =? "!")%char then true
  else if (c =? ":")%char then true
  else if (c =? ".")%char then true
  else if (c =? "[")%char then true
  else false.

Fixpoint lookup_kw (kw : list (string * string)) (key : string) : option string :=
  match kw with
  | [] => None
  | (k, v) :: kw' => if String.eqb k key then Some v else lookup_kw kw' key
  end.

(** Replacement fields that are more than a name are not interpreted:
    [format_from_field kw s] stands for what [str.format] makes of the text
    [s] that follows the opening brace of a field with a conversion, a
    format specification, an attribute or index access, or a position of
    more than nine digits: the rendering of that field and of all the text
    after it, or the exception raised. *)
Class FormatFields : Type := {
  format_from_field : list (string * string) -> string -> result string
}.

Section Format.

Context `{FormatFields}.

(** The scanner.  [field = None]: literal text; [field = Some name]: inside
    a replacement field whose name read so far is [name].  A name that is
    empty or a number refers to the positional arguments, of which there
    are none. *)
Fixpoint format_go (kw : list (string * string)) (field : option string)
    (s : string) : result string :=
  match field, s with
  | None, "" => ret ""
  | None, String c s' =>
      if (c =? "{")%char then
        match s' with
        | String c' s'' =>
            if (c' =? "{")%char
            then (try! r := format_go kw None s'' in ret (String "{"%char r))
            else format_go kw (Some "") s'
        | "" => raise (ValueError "Single '{' encountered in format string")
        end
      else if (c =? "}")%char then
        match s' with
        | String c' s'' =>
            if (c' =? "}")%char
            then (try! r := format_go kw None s'' in ret (String "}"%char r))
            else raise (ValueError "Single '}' encountered in format string")
        | "" => raise (ValueError "Single '}' encountered in format string")
        end
      else (try! r := format_go kw None s' in ret (String c r))
  | Some name, "" => raise (ValueError "expected '}' before end of string")
  | Some name, String c s' =>
      if (c =? "}")%char then
        if all_digits name then
          if (String.length name <=? 9)%nat then raise IndexError
          else format_from_field kw (name +:+ s)
        else
          match lookup_kw kw name with
          | Some v => try! r := format_go kw None s' in ret (v +:+ r)
          | None => raise (KeyError name)
          end
      else if (c =? "{")%char then raise (ValueError "unexpected '{' in field name")
      else if is_special c then format_from_field kw (name +:+ s)
      else format_go kw (Some (name +:+ String c "")) s'
  end.

(** [s.format(k1=v1, ...)] with the keyword arguments [kw] *)
Definition format (s : string) (kw : list (string * string)) : result string :=
  format_go kw None s.

End Format.

End PyFormat.

(** ** [shlex]: quoting and POSIX-mode splitting *)

Module Shlex.

Definition dquote : ascii := "034"%char.
Definition squote : ascii := "'"%char.
Definition backslash : ascii := "\"%char.

(** [\w] under [re.ASCII], and the other characters that need no quoting. *)
Definition is_safe (c : ascii) : bool :=
  let n := N_of_ascii c in
  ((48 <=? n) && (n <=? 57) || (65 <=? n) && (n <=? 90)
   || (97 <=? n) && (n <=? 122) || (n =? 95)
   || (n =? 64) || (n =? 37) || (n =? 43) || (n =? 61) || (n =? 58)
   || (n =? 44) || (n =? 46) || (n =? 47) || (n =? 45))%N.

Fixpoint all_safe (s : string) : bool :=
  match s with
  | "" => true
  | String c s' => is_safe c && all_safe s'
  end.

(** [shlex.quote(s)] *)
Definition quote (s : string) : string :=
  match s with
  | "" => "''"
  | _ =>
      if all_safe s then s
      else "'" +:+ PyStr.replace "'" ("'" +:+ String dquote ("'" +:+ String dquote "'")) s
           +:+ "'"
  end.

(** The lexer's [state]: [' '], ['a'], an opening quote, or the escape
    character. *)
Inductive lex_state : Type :=
| Blank
| Word
| Quoted (q : ascii)
| Escape.

(** [lexer.whitespace] *)
Definition is_whitespace (c : ascii) : bool :=
  if (c =? " ")%char then true
  else if (c =? "009")%char then true
  else if (c =? "013")%char then true
  else if (c =? "010")%char then true
  else false.

(** [lexer.quotes] *)
Definition is_quote (c : ascii) : bool :=
  if (c =? squote)%char then true
  else if (c =? dquote)%char then true
  else false.

(** [lexer.escape] *)
Definition is_escape (c : ascii) : bool :=
  if (c =? backslash)%char then true else false.

(** [lexer.escapedquotes] *)
Definition is_escapedquote (c : ascii) : bool :=
  if (c =? dquote)%char then true else false.

Definition snoc (token : string) (c : ascii) : string := token +:+ String c "".

(** The tokens a finished [read_token] hands out: an unquoted empty token
    is the end-of-file marker and ends the iteration. *)
Definition emit (token : string) (quoted : bool) (rest : list string) : list string :=
  if negb (String.eqb token "") || quoted then token :: rest else rest.

(** The loop of [read_token], run over the whole input, with
    [whitespace_split] set, no comment characters and no punctuation
    characters.  [st] is [self.state], [esc] is [escapedstate], [token] is
    [self.token]; a token handed out resets [token], [quoted] and [esc]. *)
Fixpoint split_go (s : string) (st esc : lex_state) (token : string)
    (quoted : bool) : result (list string) :=
  match s with
  | "" =>
      match st with
      | Blank | Word => ret (emit token quoted [])
      | Quoted _ => raise (ValueError "No closing quotation")
      | Escape => raise (ValueError "No escaped character")
      end
  | String c s' =>
      match st with
      | Blank =>
          if is_whitespace c then
            if negb (String.eqb token "") || quoted
            then (try! rest := split_go s' Blank Blank "" false in ret (token :: rest))
            else split_go s' Blank esc token quoted
          else if is_escape c then split_go s' Escape Word token quoted
          else if is_quote c then split_go s' (Quoted c) esc token quoted
          else split_go s' Word esc (String c "") quoted
      | Quoted q =>
          if (c =? q)%char then split_go s' Word esc token true
          else if is_escape c && is_escapedquote q
               then split_go s' Escape (Quoted q) token true
          else split_go s' (Quoted q) esc (snoc token c) true
      | Escape =>
          let token' :=
            match esc with
            | Quoted q =>
                if negb (c =? backslash)%char && negb (c =? q)%char
                then snoc token backslash else token
            | _ => token
            end in
          split_go s' esc esc (snoc token' c) quoted
      | Word =>
          if is_whitespace c then
            if negb (String.eqb token "") || quoted
            then (try! rest := split_go s' Blank Blank "" false in ret (token :: rest))
            else split_go s' Blank esc token quoted
          else if is_quote c then split_go s' (Quoted c) esc token quoted
          else if is_escape c then split_go s' Escape Word token quoted
          else split_go s' Word esc (snoc token c) quoted
      end
  end.

(** [shlex.split(s)] *)
Definition split (s : string) : result (list string) :=
  split_go s Blank Blank "" false.

End Shlex.

(** ** The guard template *)

Definition nl : string := String "010"%char "".
Definition dq : string := String Shlex.dquote "".

Definition RESOURCE_LIMIT_TEMPLATE_lines : list string :=
  [    "import java.lang.management.ManagementFactory;";
       "import java.lang.management.MemoryMXBean;";
       "import java.util.concurrent.TimeUnit;";
       "";
       "public class ResourceLimit {{";
       "    private static final long startTime = System.nanoTime();";
       "    private static final long timeoutNanos = {timeout} * 1_000_000L; // Convert to nanoseconds";
       "    private static final long memoryLimitBytes = {memory_limit};";
       "";
       "    static {{";
       "        // Set up timeout handler";
       "        Thread timeoutThread = new Thread(() -> {{";
       "            try {{";
       "                Thread.sleep({timeout});";
       "                System.err.println(" +:+ dq +:+ "Suicide from timeout." +:+ dq +:+ ");";
       "                System.exit({TIMEOUT_EXIT_CODE});";
       "            }} catch (InterruptedException e) {{";
       "                // Normal exit";
       "            }}";
       "        }});";
       "        timeoutThread.setDaemon(true);";
       "        timeoutThread.start();";
       "";
       "        // Memory monitoring (optional - JVM handles this)";
       "        if (memoryLimitBytes > 0) {{";
       "            Thread memoryThread = new Thread(() -> {{";
       "                while (true) {{";
       "                    try {{";
       "                        MemoryMXBean memoryBean = ManagementFactory.getMemoryMXBean();";
       "                        long usedMemory = memoryBean.getHeapMemoryUsage().getUsed();";
       "                        if (usedMemory > memoryLimitBytes) {{";
       "                            System.err.println(" +:+ dq +:+ "Memory limit exceeded." +:+ dq +:+ ");";
       "                            System.exit({TIMEOUT_EXIT_CODE});";
       "                        }}";
       "                        Thread.sleep(100); // Check every 100ms";
       "                    }} catch (Exception e) {{";
       "                        break;";
       "                    }}";
       "                }}";
       "            }});";
       "            memoryThread.setDaemon(true);";
       "            memoryThread.start();";
       "        }}";
       "    }}";
       "";
       "    public static void checkTimeout() {{";
       "        long currentTime = System.nanoTime();";
       "        if (currentTime - startTime > timeoutNanos) {{";
       "            System.err.println(" +:+ dq +:+ "Suicide from timeout." +:+ dq +:+ ");";
       "            System.exit({TIMEOUT_EXIT_CODE});";
       "        }}";
       "    }}";
       "}}" ].

(** The triple-quoted literal opens and closes with a line break, which
    [strip] removes. *)
Definition RESOURCE_LIMIT_TEMPLATE : string :=
  PyStr.strip (nl +:+ PyStr.join nl RESOURCE_LIMIT_TEMPLATE_lines +:+ nl).

(** ** The synthesized guard source, block by block *)

(** A text given as lines, each line as the pieces it is made of. *)
Definition flat_line (pieces : list string) (rest : string) : string :=
  fold_right String.append rest pieces.

Fixpoint flat (lines : list (list string)) : string :=
  match lines with
  | [] => ""
  | [l] => flat_line l ""
  | l :: ls => flat_line l (String "010"%char (flat ls))
  end.

(** The imports and the fields, for the timeout [t] and the memory limit [m]
    as they are printed. *)
Definition guard_header (t m : string) : list (list string) :=
  [ ["import java.lang.management.ManagementFactory;"];
    ["import java.lang.management.MemoryMXBean;"];
    ["import java.util.concurrent.TimeUnit;"];
    [];
    ["public class ResourceLimit {"];
    ["    private static final long startTime = System.nanoTime();"];
    ["    private static final long timeoutNanos = "; t; " * 1_000_000L; // Convert to nanoseconds"];
    ["    private static final long memoryLimitBytes = "; m; ";"];
    [] ].

(** The static initialiser up to the start of the timeout thread. *)
Definition timeout_watchdog (t code : string) : list (list string) :=
  [ ["    static {"];
    ["        // Set up timeout handler"];
    ["        Thread timeoutThread = new Thread(() -> {"];
    ["            try {"];
    ["                Thread.sleep("; t; ");"];
    ["                System.err.println("; dq; "Suicide from timeout."; dq; ");"];
    ["                System.exit("; code; ");"];
    ["            } catch (InterruptedException e) {"];
    ["                // Normal exit"];
    ["            }"];
    ["        });"];
    ["        timeoutThread.setDaemon(true);"];
    ["        timeoutThread.start();"] ].

(** The memory thread, started under [memoryLimitBytes > 0]. *)
Definition memory_watchdog (code : string) : list (list string) :=
  [ [];
    ["        // Memory monitoring (optional - JVM handles this)"];
    ["        if (memoryLimitBytes > 0) {"];
    ["            Thread memoryThread = new Thread(() -> {"];
    ["                while (true) {"];
    ["                    try {"];
    ["                        MemoryMXBean memoryBean = ManagementFactory.getMemoryMXBean();"];
    ["                        long usedMemory = memoryBean.getHeapMemoryUsage().getUsed();"];
    ["                        if (usedMemory > memoryLimitBytes) {"];
    ["                            System.err.println("; dq; "Memory limit exceeded."; dq; ");"];
    ["                            System.exit("; code; ");"];
    ["                        }"];
    ["                        Thread.sleep(100); // Check every 100ms"];
    ["                    } catch (Exception e) {"];
    ["                        break;"];
    ["                    }"];
    ["                }"];
    ["            });"];
    ["            memoryThread.setDaemon(true);"];
    ["            memoryThread.start();"];
    ["        }"] ].

(** The end of the static initialiser and the synchronous check. *)
Definition check_timeout (code : string) : list (list string) :=
  [ ["    }"];
    [];
    ["    public static void checkTimeout() {"];
    ["        long currentTime = System.nanoTime();"];
    ["        if (currentTime - startTime > timeoutNanos) {"];
    ["            System.err.println("; dq; "Suicide from timeout."; dq; ");"];
    ["            System.exit("; code; ");"];
    ["        }"];
    ["    }"];
    ["}"] ].

Definition guard_text (t m code : string) : string :=
  flat (guard_header t m ++ timeout_watchdog t code
        ++ memory_watchdog code ++ check_timeout code).

(** The arguments of the calls of [System.exit] in a Java text, in order:
    at each occurrence of the call, the text up to the closing parenthesis. *)
Fixpoint until_paren (s : string) : string :=
  match s with
  | "" => ""
  | String c s' => if (c =? ")")%char then "" else String c (until_paren s')
  end.

Fixpoint drop (n : nat) (s : string) : string :=
  match n, s with
  | S n', String _ s' => drop n' s'
  | _, _ => s
  end.

Fixpoint exit_args (s : string) : list string :=
  match s with
  | "" => []
  | String _ s' =>
      if PyStr.startswith "System.exit(" s
      then until_paren (drop 12 s) :: exit_args s'
      else exit_args s'
  end.

(** Decimal numerals, with or without a sign. *)
Definition is_numeral_char (c : ascii) : bool :=
  PyFormat.is_digit c || (c =? "-")%char.

Fixpoint numeral (s : string) : bool :=
  match s with
  | "" => true
  | String c s' => is_numeral_char c && numeral s'
  end.

(** ** Files *)

(** The scratch directory as a finite map from paths to contents. *)
Abbreviation files := (gmap string string).

(** [open(path, "w")] in a directory that exists and can be written to: the
    file is created or truncated.  The [OSError] that [open] raises otherwise
    is not modelled: what is proved of the files and of [setup_command] as a
    whole is proved of runs in which the two calls of [open] succeed. *)
Definition open_w (path : string) (fs : files) : files := <[path := ""]> fs.

(** [f.write(text)] on a file opened for writing: the text is appended. *)
Definition f_write (path text : string) (fs : files) : files :=
  alter (fun content => content +:+ text) path fs.

(** ** Truthiness of an [Optional[int]] *)

Definition truthy (o : option Z) : bool :=
  match o with
  | Some z => negb (z =? 0)%Z
  | None => false
  end.

(** [o or 0] *)
Definition or_zero (o : option Z) : Z :=
  match o with
  | Some z => if truthy o then z else 0%Z
  | None => 0%Z
  end.

(** ** The executor *)

(** [JvmExecutor.__init__] *)
Record JvmExecutor : Type := {
  compiler_cl : string;
  run_cl : string;
  timeout : option Z;
  memory_limit : option Z
}.

(** What dialect detection binds: [source_file], [class_name], [is_kotlin]. *)
Record dialect : Type := {
  source_file : string;
  class_name : string;
  is_kotlin : bool
}.

Definition java_dialect (tmp_path : string) : dialect :=
  {| source_file := tmp_path +:+ "/Main.java"; class_name := "Main"; is_kotlin := false |}.

Definition kotlin_dialect (tmp_path : string) : dialect :=
  {| source_file := tmp_path +:+ "/Main.kt"; class_name := "MainKt"; is_kotlin := true |}.

(** The first [if] of [setup_command]. *)
Definition detect (tmp_path script : string) : dialect :=
  if PyStr.startswith "public class" (PyStr.strip script)
     || PyStr.contains "class " (PyStr.slice_to 200 script)
  then java_dialect tmp_path
  else if PyStr.contains "fun main" (PyStr.slice_to 200 script)
          || PyStr.contains "kotlin" (PyStr.lower (PyStr.slice_to 200 script))
  then kotlin_dialect tmp_path
  else java_dialect tmp_path.

(** [if resource_file:] on an optional path. *)
Definition is_set (resource_file : option string) : bool :=
  match resource_file with
  | Some (String _ _) => true
  | _ => false
  end.

(** The names that [jvm_executor.py] imports from
    [app.libs.executors.executor], whose source is not at hand, are
    parameters: the type of the cost field with the reading of an integer
    literal in it, the two exit codes and the [success] attribute of a
    process result. *)
Class CostModel : Type := {
  Cost : Type;
  cost_of_int : Z -> Cost
}.

Record ProcessExecuteResult `{CostModel} : Type := {
  stdout : string;
  stderr : string;
  exit_code : Z;
  cost : Cost
}.

Class ExecutorModule `{CostModel} : Type := {
  TIMEOUT_EXIT_CODE : Z;
  COMPILE_ERROR_EXIT_CODE : Z;
  success : ProcessExecuteResult -> bool
}.

(** The process runner, an external collaborator: given the number of the
    stage, the files, the argument vector, the working directory, the
    standard input and the timeout of the request, it returns the files as
    the process left them and the process result. *)
Class ProcessRunner `{CostModel} : Type := {
  run_process :
    nat -> files -> list string -> string -> option string -> option Z ->
    files * ProcessExecuteResult
}.

(** A generator of command vectors that is sent a process result after
    each yield: what is left of it is either a yielded command with the
    continuation that [send] resumes, the end of the body, or an exception
    leaving the body. *)
Inductive Generator `{CostModel} : Type :=
| Yield (cmd : list string) (send : ProcessExecuteResult -> Generator)
| Stop
| Raise (e : exn).

Section Executor.

Context `{PyFormat.FormatFields} `{CostModel} `{!ExecutorModule} `{!ProcessRunner}.

(** *** [setup_command] *)

(** The guard source: [RESOURCE_LIMIT_TEMPLATE.format(...)]. *)
Definition resource_limit_source (self : JvmExecutor) : result string :=
  PyFormat.format RESOURCE_LIMIT_TEMPLATE
    [("timeout", PyStr.str_of_int (or_zero (timeout self)));
     ("memory_limit", PyStr.str_of_int (or_zero (memory_limit self)));
     ("TIMEOUT_EXIT_CODE", PyStr.str_of_int TIMEOUT_EXIT_CODE)].

(** Lines 93 to 102: the guard file, written for Java only and only with a
    resource limit.  Returns [resource_file]. *)
Definition write_resource_file (self : JvmExecutor) (tmp_path : string)
    (d : dialect) (fs : files) : files * result (option string) :=
  if negb (is_kotlin d) && (truthy (timeout self) || truthy (memory_limit self))
  then
    let resource_file := tmp_path +:+ "/ResourceLimit.java" in
    let fs := open_w resource_file fs in
    match resource_limit_source self with
    | inl e => (fs, raise e)
    | inr text => (f_write resource_file text fs, ret (Some resource_file))
    end
  else (fs, ret None).

(** Lines 104 to 125: the main source file. *)
Definition write_source_file (script : string) (d : dialect)
    (resource_file : option string) (fs : files) : files :=
  let f := source_file d in
  let fs := open_w f fs in
  if negb (is_kotlin d) then
    let fs := f_write f ("public class Main {" +:+ nl) fs in
    let fs := f_write f ("    public static void main(String[] args) {" +:+ nl) fs in
    let fs := if is_set resource_file
              then f_write f ("        ResourceLimit.checkTimeout();" +:+ nl) fs
              else fs in
    let fs := f_write f ("        try {" +:+ nl) fs in
    let fs := f_write f script fs in
    let fs := f_write f ("        } catch (Exception e) {" +:+ nl) fs in
    let fs := f_write f ("            e.printStackTrace();" +:+ nl) fs in
    let fs := f_write f ("        }" +:+ nl) fs in
    let fs := f_write f ("    }" +:+ nl) fs in
    f_write f ("}" +:+ nl) fs
  else
    if negb (PyStr.contains "fun main" script) then
      let fs := f_write f ("fun main() {" +:+ nl) fs in
      let fs := f_write f script fs in
      f_write f ("}" +:+ nl) fs
    else f_write f script fs.

(** Lines 127 to 147: the command string of the compile step, as the
    f-string interpolates it. *)
Definition compile_cl (self : JvmExecutor) (tmp_path : string) (d : dialect)
    (resource_file : option string) : string :=
  if is_kotlin d then
    let jar_file := tmp_path +:+ "/Main.jar" in
    compiler_cl self +:+ " " +:+ source_file d +:+ " -include-runtime -d " +:+ jar_file
  else
    match resource_file with
    | Some (String c r) =>
        compiler_cl self +:+ " " +:+ source_file d +:+ " " +:+ String c r
    | _ => compiler_cl self +:+ " " +:+ source_file d
    end.

Definition compile_cmd (self : JvmExecutor) (tmp_path : string) (d : dialect)
    (resource_file : option string) : result (list string) :=
  try! cl := PyFormat.format (compile_cl self tmp_path d resource_file)
               [("source", Shlex.quote (source_file d));
                ("workdir", Shlex.quote tmp_path)] in
  Shlex.split cl.

(** Lines 153 to 167: the command string of the execution step. *)
Definition run_cl_string (self : JvmExecutor) (tmp_path : string) (d : dialect) : string :=
  if is_kotlin d then
    let jar_name := PyStr.replace ".kt" ".jar" (source_file d) in
    run_cl self +:+ " -jar " +:+ jar_name
  else
    run_cl self +:+ " -cp " +:+ tmp_path +:+ " " +:+ class_name d.

Definition run_cmd (self : JvmExecutor) (tmp_path : string) (d : dialect)
    : result (list string) :=
  let exe := if is_kotlin d
             then PyStr.replace ".kt" ".jar" (source_file d)
             else class_name d in
  try! cl := PyFormat.format (run_cl_string self tmp_path d)
               [("exe", Shlex.quote exe); ("workdir", Shlex.quote tmp_path)] in
  Shlex.split cl.

(** What is left of the generator once the compile command is built:
    lines 149 to 169. *)
Definition stages (self : JvmExecutor) (tmp_path : string) (d : dialect)
    (compile : result (list string)) : Generator :=
  match compile with
  | inl e => Raise e
  | inr cmd =>
      Yield cmd (fun result =>
        if negb (success result) then Raise (CompileError (stderr result))
        else
          match run_cmd self tmp_path d with
          | inl e => Raise e
          | inr cmd' => Yield cmd' (fun _ => Stop)
          end)
  end.

(** [JvmExecutor.setup_command], run up to its first yield (or to the
    exception that ends it before): the files it has written and what is
    left of the generator. *)
Definition setup_command (self : JvmExecutor) (tmp_path script : string)
    (fs : files) : files * Generator :=
  let d := detect tmp_path script in
  match write_resource_file self tmp_path d fs with
  | (fs, inl e) => (fs, Raise e)
  | (fs, inr resource_file) =>
      let fs := write_source_file script d resource_file fs in
      (fs, stages self tmp_path d (compile_cmd self tmp_path d resource_file))
  end.

(** *** Names for what [setup_command] decides *)

(** The test of line 95, on the dialect and the limits. *)
Definition wants_guard (self : JvmExecutor) (d : dialect) : bool :=
  negb (is_kotlin d) && (truthy (timeout self) || truthy (memory_limit self)).

(** The guard text for the limits of [self]: the timeout and the memory
    limit, or 0 for one that is not set, and the exit code, as [str]
    prints them. *)
Definition guard_of (self : JvmExecutor) : string :=
  guard_text (PyStr.str_of_int (or_zero (timeout self)))
             (PyStr.str_of_int (or_zero (memory_limit self)))
             (PyStr.str_of_int TIMEOUT_EXIT_CODE).

(** *** The orchestrator of the base class *)

(** Modelled from the spec: the driving loop of
    [ScriptExecutor.execute_script] ([executor.py] is missing).  While a
    stage is available the runner is invoked on it and its result is fed
    back to the backend; an exception of the backend ends the loop; when no
    stage is left the result of the last stage is the result.  Which stage
    reads the standard input is left to the runner, which is told the
    number of the stage. *)
Fixpoint drive (g : Generator) (n : nat) (fs : files) (tmp_path : string)
    (stdin : option string) (tmo : option Z)
    (last : option ProcessExecuteResult) : result (option ProcessExecuteResult) :=
  match g with
  | Yield cmd send =>
      let '(fs', r) := run_process n fs cmd tmp_path stdin tmo in
      drive (send r) (S n) fs' tmp_path stdin tmo (Some r)
  | Stop => ret last
  | Raise e => raise e
  end.

(** Modelled from the spec: [ScriptExecutor.execute_script] ([executor.py]
    is missing), for a backend given by its [setup_command] and a scratch
    directory [tmp_path] provisioned in the files [fs].  A backend that
    produces no stage at all has no result to report ([None]). *)
Definition ScriptExecutor_execute_script
    (setup : string -> string -> files -> files * Generator)
    (tmp_path : string) (fs : files)
    (script : string) (stdin : option string) (tmo : option Z)
    : result (option ProcessExecuteResult) :=
  let '(fs', g) := setup tmp_path script fs in
  drive g 0 fs' tmp_path stdin tmo None.

(** [JvmExecutor.execute_script]: lines 171 to 175.  [str(e)] is the
    message the [CompileError] was raised with. *)
Definition execute_script (self : JvmExecutor) (tmp_path : string) (fs : files)
    (script : string) (stdin : option string) (tmo : option Z)
    : result (option ProcessExecuteResult) :=
  match ScriptExecutor_execute_script (setup_command self) tmp_path fs script stdin tmo with
  | inl (CompileError msg) =>
      ret (Some {| stdout := ""; stderr := msg;
                   exit_code := COMPILE_ERROR_EXIT_CODE; cost := cost_of_int 0 |})
  | other => other
  end.

End Executor.

(** ** The assembled Java source *)

Definition java_main_source (guarded : bool) (script : string) : string :=
  "public class Main {" +:+ nl
  +:+ "    public static void main(String[] args) {" +:+ nl
  +:+ (if guarded then "        ResourceLimit.checkTimeout();" +:+ nl else "")
  +:+ "        try {" +:+ nl
  +:+ script
  +:+ "        } catch (Exception e) {" +:+ nl
  +:+ "            e.printStackTrace();" +:+ nl
  +:+ "        }" +:+ nl
  +:+ "    }" +:+ nl
  +:+ "}" +:+ nl.

(** ** Dialect detection as a function of a prefix of the source *)

(** The markers of a class declaration in a prefix [p] of the source: the
    prefix opens, after blanks, with [public class], or holds [class ]. *)
Definition class_marker (p : string) : bool :=
  PyStr.startswith "public class" (PyStr.lstrip p) || PyStr.contains "class " p.

(** The markers of the script style: [fun main], or [kotlin] in any case. *)
Definition kotlin_marker (p : string) : bool :=
  PyStr.contains "fun main" p || PyStr.contains "kotlin" (PyStr.lower p).

Definition detect_by_prefix (tmp_path p : string) : dialect :=
  if class_marker p then java_dialect tmp_path
  else if kotlin_marker p then kotlin_dialect tmp_path
  else java_dialect tmp_path.

(** What [setup_command] appends to the compile command string after the
    path of the source file. *)
Definition compile_tail (tmp_path : string) (d : dialect)
    (resource_file : option string) : string :=
  if is_kotlin d then " -include-runtime -d " +:+ tmp_path +:+ "/Main.jar"
  else match resource_file with
       | Some (String c r) => " " +:+ String c r
       | _ => ""
       end.

(** ** Source text of any code points *)

(** Dialect detection is the one place where the executor reads the guest
    source as text, and [str.lower] sends characters from outside the code
    points 0 to 255 into ASCII (the Kelvin sign U+212A is lowered to [k]).
    For detection the source is therefore also modelled as the list of its
    code points, with no bound on them. *)

Module Wide.

(** A Python [str] as the list of its code points. *)
Abbreviation text := (list N).

(** The code points of a string literal of the source. *)
Fixpoint of_string (s : string) : text :=
  match s with
  | "" => []
  | String c s' => N_of_ascii c :: of_string s'
  end.

(** What the Unicode database decides outside ASCII: which code points
    [str.isspace] takes for blanks, and what [str.lower] puts for a code
    point at its place in a text (the text before it, the code point, the
    text after it: the capital sigma is lowered by its neighbours, and one
    code point can be lowered to several).  Blanks have no case. *)
Class Unicode : Type := {
  isspace_wide : N -> bool;
  lower_wide : text -> N -> text -> text;
  lower_wide_space : forall pre c suf,
    isspace_wide c = true -> lower_wide pre c suf = [c]
}.

Section Text.
Context `{Unicode}.

(** [str.isspace] on one code point: in ASCII the C0 separators and the
    blank. *)
Definition isspace (c : N) : bool :=
  if (c <? 128)%N
  then ((9 <=? c) && (c <=? 13) || (28 <=? c) && (c <=? 32))%N
  else isspace_wide c.

(** [s[:n]] *)
Definition slice_to (n : nat) (s : text) : text := take n s.

(** [s.startswith(p)] *)
Fixpoint startswith (p s : text) : bool :=
  match p, s with
  | [], _ => true
  | a :: p', b :: s' => if (a =? b)%N then startswith p' s' else false
  | _ :: _, [] => false
  end.

(** [sub in s] *)
Fixpoint contains (sub s : text) : bool :=
  startswith sub s ||
  match s with
  | [] => false
  | _ :: s' => contains sub s'
  end.

Fixpoint lstrip (s : text) : text :=
  match s with
  | c :: s' => if isspace c then lstrip s' else s
  | [] => []
  end.

Fixpoint rstrip (s : text) : text :=
  match s with
  | [] => []
  | c :: s' =>
      match rstrip s' with
      | [] => if isspace c then [] else [c]
      | r => c :: r
      end
  end.

(** [s.strip()] *)
Definition strip (s : text) : text := rstrip (lstrip s).

(** [str.lower] at one place of a text: in ASCII the capitals are moved to
    the small letters and nothing else changes. *)
Definition lower_at (pre : text) (c : N) (suf : text) : text :=
  if (c <? 128)%N
  then [if ((65 <=? c) && (c <=? 90))%N then (c + 32)%N else c]
  else lower_wide pre c suf.

Fixpoint lower_go (pre s : text) : text :=
  match s with
  | [] => []
  | c :: suf => lower_at pre c suf ++ lower_go (pre ++ [c]) suf
  end.

(** [s.lower()] *)
Definition lower (s : text) : text := lower_go [] s.

(** Lines 77 to 91 of [setup_command] on a source of any code points. *)
Definition detect (tmp_path : string) (script : text) : dialect :=
  if startswith (of_string "public class") (strip script)
     || contains (of_string "class ") (slice_to 200 script)
  then java_dialect tmp_path
  else if contains (of_string "fun main") (slice_to 200 script)
          || contains (of_string "kotlin") (lower (slice_to 200 script))
  then kotlin_dialect tmp_path
  else java_dialect tmp_path.

(** The markers of a class declaration in a prefix [p] of the source: the
    prefix opens, after blanks, with [public class], or holds [class ]. *)
Definition class_marker (p : text) : bool :=
  startswith (of_string "public class") (lstrip p)
  || contains (of_string "class ") p.

(** The markers of the script style: [fun main], or [kotlin] in any case. *)
Definition kotlin_marker (p : text) : bool :=
  contains (of_string "fun main") p || contains (of_string "kotlin") (lower p).

Definition detect_by_prefix (tmp_path : string) (p : text) : dialect :=
  if class_marker p then java_dialect tmp_path
  else if kotlin_marker p then kotlin_dialect tmp_path
  else java_dialect tmp_path.

(** A text of blanks only. *)
Definition all_space (s : text) : bool := forallb isspace s.

(** The empty text, and a text whose last code point is no blank. *)
Fixpoint ends_nonspace (s : text) : bool :=
  match s with
  | [] => true
  | [c] => negb (isspace c)
  | _ :: s' => ends_nonspace s'
  end.

(** A code point that [str.lower] leaves as it is wherever it stands: a
    blank, or an ASCII code point that is no capital. *)
Definition inert (c : N) : bool :=
  isspace c || (c <? 128)%N && negb ((65 <=? c) && (c <=? 90))%N.

End Text.

(** An instance for running examples: the blanks of Unicode outside ASCII,
    and a lowering that knows the Kelvin sign and the Latin-1 capitals. *)
Definition demo_isspace_wide (c : N) : bool :=
  ((c =? 133) || (c =? 160) || (c =? 5760) || (8192 <=? c) && (c <=? 8202)
   || (c =? 8232) || (c =? 8233) || (c =? 8239) || (c =? 8287)
   || (c =? 12288))%N.

Definition demo_lower_wide_rest (c : N) : text :=
  if (c =? 8490)%N then [107%N]
  else if ((192 <=? c) && (c <=? 222) && negb (c =? 215))%N then [(c + 32)%N]
  else [c].

Definition demo_lower_wide (pre : text) (c : N) (suf : text) : text :=
  if demo_isspace_wide c then [c] else demo_lower_wide_rest c.

Definition demo_unicode : Unicode :=
  {| isspace_wide := demo_isspace_wide;
     lower_wide := demo_lower_wide;
     lower_wide_space := fun (pre : text) (c : N) (suf : text)
                             (Hs : demo_isspace_wide c = true) =>
       @eq_ind_r bool true
         (fun b : bool => (if b then [c] else demo_lower_wide_rest c) = [c])
         eq_refl (demo_isspace_wide c) Hs |}.

End Wide.

(** ** The stages a generator emits *)

(** The commands a generator yields when the result sent after stage [n] is
    [feed n], and how it ends: [None] when its body returns, [Some e] when
    [e] leaves it. *)
Fixpoint emitted `{CostModel} (g : Generator)
    (feed : nat -> ProcessExecuteResult) (n : nat)
    : list (list string) * option exn :=
  match g with
  | Yield cmd send =>
      let '(cmds, ending) := emitted (send (feed n)) feed (S n) in
      (cmd :: cmds, ending)
  | Stop => ([], None)
  | Raise e => ([], Some e)
  end.

(** The two operations on a suspended generator: the stage it offers, and
    what is left of it once a result is sent. *)
Definition next_stage `{CostModel} (g : Generator) : option (list string) :=
  match g with
  | Yield cmd _ => Some cmd
  | _ => None
  end.

Definition accept_result `{CostModel} (g : Generator)
    (r : ProcessExecuteResult) : Generator :=
  match g with
  | Yield _ send => send r
  | _ => g
  end.

(** ** Character classes of command strings *)

Fixpoint all_chars (P : ascii -> bool) (s : string) : bool :=
  match s with
  | "" => true
  | String c s' => P c && all_chars P s'
  end.

Definition is_brace (c : ascii) : bool := (c =? "{")%char || (c =? "}")%char.

(** No character that [str.format] reads as markup. *)
Definition brace_free (s : string) : bool := all_chars (fun c => negb (is_brace c)) s.

(** No character that [str.format] reads as markup, and none that
    [shlex.split] reads as a quote or an escape. *)
Definition is_plain_char (c : ascii) : bool :=
  negb (is_brace c) && negb (Shlex.is_quote c) && negb (Shlex.is_escape c).

Definition plain (s : string) : bool := all_chars is_plain_char s.

(** No character that [shlex.split] reads as a quote or an escape. *)
Definition no_quoting (s : string) : bool :=
  all_chars (fun c => negb (Shlex.is_quote c) && negb (Shlex.is_escape c)) s.

(** Plain characters and the blank: what the literal parts of the command
    strings are made of. *)
Definition is_literal_char (c : ascii) : bool := is_plain_char c || (c =? " ")%char.

(** No character that [shlex.split] reads as a separator. *)
Definition ws_free (s : string) : bool :=
  all_chars (fun c => negb (Shlex.is_whitespace c)) s.

(** A source of ASCII characters only. *)
Definition is_ascii (c : ascii) : bool := (N_of_ascii c <? 128)%N.
Definition ascii_only (s : string) : bool := all_chars is_ascii s.

(** Blank strings, and strings whose last character is not blank. *)
Fixpoint ends_nonspace (p : string) : bool :=
  match p with
  | "" => true
  | String c "" => negb (PyStr.isspace c)
  | String _ p' => ends_nonspace p'
  end.

Fixpoint all_space (s : string) : bool :=
  match s with
  | "" => true
  | String c s' => PyStr.isspace c && all_space s'
  end.

(** ** A concrete setting *)

(** Instances of the parameters, for examples: a [format] that refuses the
    fields it does not interpret, integer costs, success as a
    zero exit code, and a runner whose compiler fails when [fail_compile]
    is set and whose second stage exits with 3. *)
Definition demo_format : PyFormat.FormatFields :=
  {| PyFormat.format_from_field := fun _ _ => raise (ValueError "field not interpreted") |}.

Definition demo_costs : CostModel := {| Cost := Z; cost_of_int := id |}.

Definition demo_result (code : Z) (out err : string) : @ProcessExecuteResult demo_costs :=
  @Build_ProcessExecuteResult demo_costs out err code 7%Z.

Definition demo_module : @ExecutorModule demo_costs :=
  {| TIMEOUT_EXIT_CODE := 124; COMPILE_ERROR_EXIT_CODE := 125;
     success := fun r => (exit_code r =? 0)%Z |}.

Definition demo_runner (fail_compile : bool) : @ProcessRunner demo_costs :=
  {| run_process := fun n fs cmd workdir stdin tmo =>
       match n with
       | O => (fs, if fail_compile
                   then demo_result 1 "" "Main.java:3: error: ';' expected"
                   else demo_result 0 "" "")
       | _ => (fs, demo_result 3 "partial output" "Exception in thread main")
       end |}.

Definition demo_executor : JvmExecutor :=
  {| compiler_cl := "javac"; run_cl := "java";
     timeout := Some 1500%Z; memory_limit := None |}.

Definition demo_script : string := "System.out.println(42);".

(** * Properties *)

#[local] Arguments String.append !_ _ / : simpl nomatch.

(** ** The library models on small inputs *)

Example strip_ex : PyStr.strip "  public class A 	 " = "public class A".
Proof. reflexivity. Qed.

Example replace_ex : PyStr.replace ".kt" ".jar" "/t/a.kt/Main.kt" = "/t/a.jar/Main.jar".
Proof. reflexivity. Qed.

Example str_of_int_ex :
  PyStr.str_of_int 0 = "0" /\ PyStr.str_of_int 1500 = "1500" /\ PyStr.str_of_int (-7) = "-7".
Proof. repeat split; reflexivity. Qed.

Example format_ex1 `{PyFormat.FormatFields} :
  PyFormat.format "a {{b}} {x}!" [("x", "1")] = ret "a {b} 1!".
Proof. reflexivity. Qed.

Example format_ex2 `{PyFormat.FormatFields} :
  PyFormat.format "javac {exe}" [("source", "s")] = raise (KeyError "exe").
Proof. reflexivity. Qed.

Example shlex_ex1 :
  Shlex.split "javac  -d 'my dir' a\ b x"
  = ret ["javac"; "-d"; "my dir"; "a b"; "x"].
Proof. reflexivity. Qed.

Example shlex_ex2 : Shlex.split "java 'x" = raise (ValueError "No closing quotation").
Proof. reflexivity. Qed.

Example shlex_ex3 : Shlex.split "a '' b" = ret ["a"; ""; "b"].
Proof. reflexivity. Qed.

Example quote_ex : Shlex.quote "/tmp/x/Main.java" = "/tmp/x/Main.java"
  /\ Shlex.quote "/tmp/my dir" = "'/tmp/my dir'".
Proof. split; reflexivity. Qed.

Example path_with_blank_is_split :
  Shlex.split "javac /tmp/my dir/Main.java" = ret ["javac"; "/tmp/my"; "dir/Main.java"].
Proof. reflexivity. Qed.

Example path_with_leading_blank_is_one_token :
  Shlex.split "javac  /tmp/x/Main.java" = ret ["javac"; "/tmp/x/Main.java"].
Proof. reflexivity. Qed.

(** ** Strings *)

Lemma append_assoc (a b c : string) : (a +:+ b) +:+ c = a +:+ b +:+ c.
Proof. induction a as [|x a IH]; [done|]. cbn. by rewrite IH. Qed.

Lemma append_nil_r (a : string) : a +:+ "" = a.
Proof. induction a as [|x a IH]; [done|]. cbn. by rewrite IH. Qed.

Lemma rstrip_empty_all_space (x : string) : PyStr.rstrip x = "" -> all_space x = true.
Proof.
  induction x as [|c x IH]; [done|]. cbn.
  destruct (PyStr.rstrip x); [|discriminate].
  destruct (PyStr.isspace c); [auto|discriminate].
Qed.

Lemma startswith_all_space (p x : string) :
  all_space x = true -> PyStr.startswith p x = true -> all_space p = true.
Proof.
  revert x; induction p as [|a p IH]; intros [|c x]; cbn; try done.
  intros [Hc Hx]%andb_prop.
  destruct (Ascii.eqb_spec a c) as [->|]; [|done].
  intros H. rewrite Hc. eauto.
Qed.

Lemma all_space_ends (p : string) :
  all_space p = true -> ends_nonspace p = true -> p = "".
Proof.
  induction p as [|a p IH]; [done|]. cbn.
  intros [Ha Hp]%andb_prop. destruct p as [|b p].
  - rewrite Ha. discriminate.
  - intros H. specialize (IH Hp H). discriminate.
Qed.

Lemma ends_nonspace_tail a p : ends_nonspace (String a p) = true -> ends_nonspace p = true.
Proof. destruct p; done. Qed.

Lemma startswith_rstrip (p x : string) :
  ends_nonspace p = true -> PyStr.startswith p (PyStr.rstrip x) = PyStr.startswith p x.
Proof.
  revert p; induction x as [|c x IH]; intros p Hp; [done|].
  destruct p as [|a p]; [by destruct (PyStr.rstrip (String c x))|].
  cbn [PyStr.rstrip].
  destruct (PyStr.rstrip x) as [|r0 r] eqn:Hr.
  - specialize (IH p (ends_nonspace_tail _ _ Hp)). cbn in IH.
    destruct (PyStr.isspace c) eqn:Hc; cbn.
    + destruct (Ascii.eqb_spec a c) as [->|]; [|done].
      destruct (PyStr.startswith p x) eqn:Hs; [|done].
      pose proof (startswith_all_space _ _ (rstrip_empty_all_space _ Hr) Hs) as Hall.
      pose proof (all_space_ends _ Hall (ends_nonspace_tail _ _ Hp)) as ->.
      cbn in Hp. rewrite Hc in Hp. discriminate.
    + by rewrite <- IH.
  - cbn. by rewrite <- (IH p (ends_nonspace_tail _ _ Hp)).
Qed.

Lemma startswith_slice (p s : string) (n : nat) :
  String.length p <= n -> PyStr.startswith p (PyStr.slice_to n s) = PyStr.startswith p s.
Proof.
  revert s n; induction p as [|a p IH]; intros s n Hn.
  - by destruct n, s.
  - destruct n as [|n]; [cbn in Hn; lia|]. destruct s as [|c s]; [done|].
    cbn. destruct (a =? c)%char; [|done]. apply IH. cbn in Hn; lia.
Qed.

Lemma startswith_slice_true (p s : string) (n : nat) :
  PyStr.startswith p (PyStr.slice_to n s) = true -> PyStr.startswith p s = true.
Proof.
  revert s n; induction p as [|a p IH]; intros s n; [done|].
  destruct n as [|n], s as [|c s]; cbn; try done.
  destruct (a =? c)%char; [|done]. apply IH.
Qed.

Lemma slice_of_startswith (p s : string) (n : nat) :
  PyStr.startswith p s = true -> n <= String.length p ->
  PyStr.slice_to n s = PyStr.slice_to n p.
Proof.
  revert s n; induction p as [|a p IH]; intros s n.
  - intros _ Hn. cbn in Hn. assert (n = 0) as -> by lia. by destruct s.
  - destruct s as [|c s]; [done|]. cbn.
    destruct (Ascii.eqb_spec a c) as [->|]; [|done].
    intros Hs Hn. destruct n as [|n]; [done|]. cbn. f_equal. apply IH; [done|cbn in Hn; lia].
Qed.

Lemma kotlin_marker_space (c : ascii) (x : string) :
  PyStr.isspace c = true -> kotlin_marker (String c x) = kotlin_marker x.
Proof.
  intros Hc. unfold kotlin_marker. cbn [PyStr.lower PyStr.contains].
  replace (PyStr.startswith "fun main" (String c x)) with false.
  2:{ cbn [PyStr.startswith]. destruct (Ascii.eqb_spec "f" c) as [<-|]; [by vm_compute in Hc|done]. }
  replace (PyStr.startswith "kotlin" (String (PyStr.lower_char c) (PyStr.lower x))) with false; [done|].
  cbn [PyStr.startswith].
  destruct (Ascii.eqb_spec "k" (PyStr.lower_char c)) as [Hk|]; [|done].
  exfalso. revert Hc Hk.
  destruct c as [[] [] [] [] [] [] [] []]; vm_compute; congruence.
Qed.

Lemma short_prefix_no_kotlin_marker (n : nat) :
  n < 12 -> kotlin_marker (PyStr.slice_to n "public class") = false.
Proof.
  intros Hn. do 12 (destruct n as [|n]; [reflexivity|]). lia.
Qed.

Lemma startswith_lstrip_slice (n : nat) (s : string) :
  kotlin_marker (PyStr.slice_to n s) = true ->
  PyStr.startswith "public class" (PyStr.lstrip s)
  = PyStr.startswith "public class" (PyStr.lstrip (PyStr.slice_to n s)).
Proof.
  revert n; induction s as [|c s IH]; intros n.
  - by destruct n.
  - destruct n as [|n]; [discriminate|].
    cbn [PyStr.slice_to PyStr.lstrip].
    destruct (PyStr.isspace c) eqn:Hc.
    + rewrite (kotlin_marker_space _ _ Hc). apply IH.
    + intros Hk.
      change (String c (PyStr.slice_to n s)) with (PyStr.slice_to (S n) (String c s)) in *.
      destruct (le_lt_dec 12 (S n)) as [Hn|Hn].
      * symmetry. apply (startswith_slice "public class" (String c s) (S n)). exact Hn.
      * destruct (PyStr.startswith "public class" (String c s)) eqn:Hs.
        -- rewrite (slice_of_startswith "public class" (String c s) (S n) Hs) in Hk
             by (cbn; lia).
           rewrite short_prefix_no_kotlin_marker in Hk by lia. discriminate.
        -- symmetry. apply not_true_is_false. intros Ht.
           apply (startswith_slice_true _ (String c s) (S n)) in Ht. congruence.
Qed.

(** On strings of code points up to 255, [detect] is a three-way choice
    computed from [script[:200]]. *)
Lemma detect_slice (tmp_path script : string) :
  detect tmp_path script = detect_by_prefix tmp_path (PyStr.slice_to 200 script).
Proof.
  unfold detect, detect_by_prefix, class_marker, PyStr.strip.
  rewrite startswith_rstrip by reflexivity.
  fold (kotlin_marker (PyStr.slice_to 200 script)).
  destruct (kotlin_marker (PyStr.slice_to 200 script)) eqn:Hk.
  - by rewrite (startswith_lstrip_slice 200 script Hk).
  - by repeat match goal with |- context [if ?b then _ else _] => destruct b end.
Qed.

(** ** Detection on a source of any code points *)

Section WideProperties.
Context `{Wide.Unicode}.

Lemma wide_startswith_spec (p s : Wide.text) :
  Wide.startswith p s = true <-> exists k, s = (p ++ k)%list.
Proof.
  revert s; induction p as [|a p IH]; intros s.
  - split; [by exists s|done].
  - destruct s as [|b s]; cbn.
    + split; [done|]. by intros [k Hk].
    + destruct (N.eqb_spec a b) as [->|Hab].
      * rewrite IH. split; intros [k Hk]; exists k; [by rewrite Hk|by injection Hk].
      * split; [done|]. intros [k Hk]. injection Hk as -> _. done.
Qed.

Lemma wide_startswith_app (p s k : Wide.text) :
  Wide.startswith p s = true -> Wide.startswith p (s ++ k)%list = true.
Proof.
  rewrite !wide_startswith_spec. intros [j ->]. exists (j ++ k)%list.
  by rewrite (assoc_L (++)%list).
Qed.

Lemma wide_startswith_long (p s k : Wide.text) :
  length p <= length s ->
  Wide.startswith p (s ++ k)%list = Wide.startswith p s.
Proof.
  revert s; induction p as [|a p IH]; intros s Hl; [done|].
  destruct s as [|b s]; [cbn in Hl; lia|]. cbn.
  destruct (a =? b)%N; [|done]. apply IH. cbn in Hl; lia.
Qed.

Lemma wide_startswith_short (p s k : Wide.text) :
  Wide.startswith p (s ++ k)%list = true -> length s <= length p ->
  s = take (length s) p.
Proof.
  revert s; induction p as [|a p IH]; intros s.
  - intros _ Hl. destruct s; [done|cbn in Hl; lia].
  - destruct s as [|b s]; [done|]. cbn.
    destruct (N.eqb_spec a b) as [->|]; [|done].
    intros Hs Hl. f_equal. apply IH; [done|lia].
Qed.

Lemma wide_rstrip_empty_all_space (x : Wide.text) :
  Wide.rstrip x = [] -> Wide.all_space x = true.
Proof.
  induction x as [|c x IH]; [done|]. cbn.
  destruct (Wide.rstrip x); [|discriminate].
  destruct (Wide.isspace c); [auto|discriminate].
Qed.

Lemma wide_startswith_all_space (p x : Wide.text) :
  Wide.all_space x = true -> Wide.startswith p x = true -> Wide.all_space p = true.
Proof.
  revert x; induction p as [|a p IH]; intros [|c x]; cbn; try done.
  intros [Hc Hx]%andb_prop.
  destruct (N.eqb_spec a c) as [->|]; [|done].
  intros Hs. rewrite Hc. cbn. by apply (IH x).
Qed.

Lemma wide_all_space_ends (p : Wide.text) :
  Wide.all_space p = true -> Wide.ends_nonspace p = true -> p = [].
Proof.
  induction p as [|a p IH]; [done|]. cbn.
  intros [Ha Hp]%andb_prop. destruct p as [|b p].
  - rewrite Ha. discriminate.
  - intros Hs. specialize (IH Hp Hs). discriminate.
Qed.

Lemma wide_ends_nonspace_tail a (p : Wide.text) :
  Wide.ends_nonspace (a :: p) = true -> Wide.ends_nonspace p = true.
Proof. destruct p; done. Qed.

Lemma wide_startswith_rstrip (p x : Wide.text) :
  Wide.ends_nonspace p = true ->
  Wide.startswith p (Wide.rstrip x) = Wide.startswith p x.
Proof.
  revert p; induction x as [|c x IH]; intros p Hp; [done|].
  destruct p as [|a p]; [by destruct (Wide.rstrip (c :: x))|].
  cbn [Wide.rstrip].
  destruct (Wide.rstrip x) as [|r0 r] eqn:Hr.
  - specialize (IH p (wide_ends_nonspace_tail _ _ Hp)). cbn in IH.
    destruct (Wide.isspace c) eqn:Hc; cbn.
    + destruct (N.eqb_spec a c) as [->|]; [|done].
      destruct (Wide.startswith p x) eqn:Hs; [|done].
      pose proof (wide_startswith_all_space _ _ (wide_rstrip_empty_all_space _ Hr) Hs)
        as Hall.
      pose proof (wide_all_space_ends _ Hall (wide_ends_nonspace_tail _ _ Hp)) as ->.
      cbn in Hp. rewrite Hc in Hp. discriminate.
    + by rewrite <- IH.
  - cbn. by rewrite <- (IH p (wide_ends_nonspace_tail _ _ Hp)).
Qed.

(** The blanks [lstrip] removes. *)
Lemma wide_lstrip_split (p : Wide.text) :
  exists w, p = (w ++ Wide.lstrip p)%list /\ Wide.all_space w = true.
Proof.
  induction p as [|c p (w & Hp & Hw)]; [by exists []|]. cbn [Wide.lstrip].
  destruct (Wide.isspace c) eqn:Hc.
  - exists (c :: w). split.
    + change (c :: p = c :: (w ++ Wide.lstrip p)%list). by rewrite <- Hp.
    + unfold Wide.all_space in *. cbn. by rewrite Hc, Hw.
  - by exists [].
Qed.

Lemma wide_lstrip_app (p rest : Wide.text) :
  Wide.lstrip p <> [] ->
  Wide.lstrip (p ++ rest)%list = (Wide.lstrip p ++ rest)%list.
Proof.
  induction p as [|c p IH]; [done|]. cbn.
  by destruct (Wide.isspace c).
Qed.

Lemma wide_lstrip_nil (p : Wide.text) :
  Wide.lstrip p = [] -> Wide.all_space p = true.
Proof.
  induction p as [|c p IH]; [done|]. cbn.
  destruct (Wide.isspace c); [auto|discriminate].
Qed.

(** [str.lower] leaves blanks and the ASCII characters other than capitals
    where they are. *)
Lemma lower_at_inert pre c suf :
  Wide.inert c = true -> Wide.lower_at pre c suf = [c].
Proof.
  unfold Wide.inert, Wide.lower_at, Wide.isspace.
  destruct (c <? 128)%N eqn:Hc.
  - destruct ((65 <=? c) && (c <=? 90))%N eqn:Hu; [|done].
    rewrite orb_false_r. intros Hs. exfalso.
    apply andb_prop in Hu as [Hu1%N.leb_le Hu2%N.leb_le].
    apply orb_prop in Hs as [Hs|Hs];
      apply andb_prop in Hs as [Hs1%N.leb_le Hs2%N.leb_le]; lia.
  - rewrite orb_false_r. apply Wide.lower_wide_space.
Qed.

Lemma lower_go_inert (s pre : Wide.text) :
  forallb Wide.inert s = true -> Wide.lower_go pre s = s.
Proof.
  revert pre; induction s as [|c s IH]; intros pre; [done|]. cbn.
  intros [Hc Hs]%andb_prop. by rewrite (lower_at_inert _ _ _ Hc), IH.
Qed.

Lemma wide_contains_head (h : N) (t s : Wide.text) :
  Wide.contains (h :: t) s = true -> existsb (N.eqb h) s = true.
Proof.
  induction s as [|c s IH]; [done|]. cbn.
  destruct (h =? c)%N; [done|]. cbn. exact IH.
Qed.

Lemma existsb_app_false {A} (f : A -> bool) (l1 l2 : list A) :
  existsb f l1 = false -> existsb f l2 = false -> existsb f (l1 ++ l2)%list = false.
Proof. intros H1 H2. by rewrite existsb_app, H1, H2. Qed.

Lemma all_space_no_letter (h : N) (w : Wide.text) :
  Wide.isspace h = false -> Wide.all_space w = true -> existsb (N.eqb h) w = false.
Proof.
  intros Hh. induction w as [|c w IH]; [done|]. cbn.
  intros [Hc Hw]%andb_prop. rewrite (IH Hw), orb_false_r.
  destruct (N.eqb_spec h c) as [->|]; [congruence|done].
Qed.

Lemma all_space_inert (w : Wide.text) :
  Wide.all_space w = true -> forallb Wide.inert w = true.
Proof.
  induction w as [|c w IH]; [done|]. cbn.
  intros [Hc Hw]%andb_prop. unfold Wide.inert at 1. by rewrite Hc, IH.
Qed.

(** Blanks followed by a strict prefix of [public class] hold no marker of
    the script style. *)
Lemma blank_prefix_no_kotlin_marker (w : Wide.text) (n : nat) :
  Wide.all_space w = true -> n < 12 ->
  Wide.kotlin_marker (w ++ take n (Wide.of_string "public class"))%list = false.
Proof.
  intros Hw Hn. unfold Wide.kotlin_marker, Wide.lower.
  assert (Hy : forallb Wide.inert (take n (Wide.of_string "public class")) = true
               /\ existsb (N.eqb 102) (take n (Wide.of_string "public class")) = false
               /\ existsb (N.eqb 107) (take n (Wide.of_string "public class")) = false).
  { do 12 (destruct n as [|n]; [by vm_compute|]). lia. }
  destruct Hy as (Hi & Hf & Hk).
  rewrite lower_go_inert by (by rewrite forallb_app, all_space_inert, Hi).
  apply orb_false_intro; apply not_true_is_false; intros Hc;
    apply wide_contains_head in Hc;
    rewrite existsb_app_false in Hc; try done;
    by apply all_space_no_letter.
Qed.

(** With a marker of the script style in [p], whether the source opens,
    after blanks, with [public class] is decided inside [p]. *)
Lemma wide_startswith_lstrip_app (p rest : Wide.text) :
  Wide.kotlin_marker p = true ->
  Wide.startswith (Wide.of_string "public class") (Wide.lstrip (p ++ rest)%list)
  = Wide.startswith (Wide.of_string "public class") (Wide.lstrip p).
Proof.
  intros Hk. destruct (wide_lstrip_split p) as (w & Hp & Hw).
  destruct (Wide.lstrip p) as [|c y] eqn:Hy.
  - apply wide_lstrip_nil in Hy.
    pose proof (blank_prefix_no_kotlin_marker p 0 Hy ltac:(lia)) as Hn.
    rewrite take_0, (right_id_L [] (++)%list) in Hn. congruence.
  - rewrite wide_lstrip_app by (rewrite Hy; done). rewrite Hy.
    destruct (le_lt_dec 12 (length (c :: y))) as [Hl|Hl].
    + by apply wide_startswith_long.
    + destruct (Wide.startswith (Wide.of_string "public class") ((c :: y) ++ rest)%list)
        eqn:Hs.
      * apply wide_startswith_short in Hs; [|cbn in *; lia].
        rewrite Hp, Hs, blank_prefix_no_kotlin_marker in Hk by done. discriminate.
      * symmetry. apply not_true_is_false. intros Ht.
        apply (wide_startswith_app _ _ rest) in Ht. congruence.
Qed.

Lemma wide_detect_slice (tmp_path : string) (script : Wide.text) :
  Wide.detect tmp_path script
  = Wide.detect_by_prefix tmp_path (take 200 script).
Proof.
  rewrite <- (take_drop 200 script) at 1.
  unfold Wide.detect, Wide.detect_by_prefix, Wide.class_marker, Wide.strip,
    Wide.slice_to.
  rewrite wide_startswith_rstrip by reflexivity.
  rewrite (take_drop 200 script).
  fold (Wide.kotlin_marker (take 200 script)).
  destruct (Wide.kotlin_marker (take 200 script)) eqn:Hk.
  - rewrite <- (take_drop 200 script) at 1.
    by rewrite (wide_startswith_lstrip_app _ _ Hk).
  - by repeat match goal with |- context [if ?b then _ else _] => destruct b end.
Qed.

(** C5: dialect detection looks at the first 200 characters of the source
    only: for a source [p ++ rest] whose first 200 characters are [p] (or
    which is [p], when it is shorter), what comes after [p] plays no part.
    When [p] holds a class declaration marker (it opens, after blanks, with
    [public class], or holds [class ]) the class-wrapper (Java) dialect is
    chosen; otherwise, when [p] holds [fun main], or [str.lower] of [p]
    holds [kotlin] (the word in any case of letters), the script-style
    (Kotlin) dialect is chosen; with neither marker the choice is the
    class-wrapper dialect.  The source is a text of any code points. *)
Theorem detect_reads_first_200 (tmp_path : string) (p rest : Wide.text) :
  length p = 200 \/ (length p < 200 /\ rest = []) ->
  Wide.detect tmp_path (p ++ rest)%list = Wide.detect_by_prefix tmp_path p.
Proof.
  intros Hp. rewrite wide_detect_slice. f_equal.
  destruct Hp as [Hp|[Hp ->]].
  - by rewrite <- Hp, take_app_length.
  - rewrite (right_id_L [] (++)%list). apply take_ge. lia.
Qed.

End WideProperties.

(** *** ASCII sources: the two models of the source agree *)

Section WideAscii.
Context `{Wide.Unicode}.

Lemma N_of_ascii_eqb (a b : ascii) : (N_of_ascii a =? N_of_ascii b)%N = (a =? b)%char.
Proof.
  destruct (Ascii.eqb_spec a b) as [->|Hab]; [apply N.eqb_refl|].
  apply N.eqb_neq. intros Hn. apply Hab.
  by rewrite <- (ascii_N_embedding a), <- (ascii_N_embedding b), Hn.
Qed.

Lemma of_string_slice (n : nat) (s : string) :
  Wide.of_string (PyStr.slice_to n s) = take n (Wide.of_string s).
Proof.
  revert n; induction s as [|c s IH]; intros [|n]; try done.
  cbn. by rewrite IH.
Qed.

Lemma startswith_of_string (p s : string) :
  Wide.startswith (Wide.of_string p) (Wide.of_string s) = PyStr.startswith p s.
Proof.
  revert s; induction p as [|a p IH]; intros [|c s]; try done.
  cbn [Wide.of_string Wide.startswith PyStr.startswith].
  by rewrite N_of_ascii_eqb, IH.
Qed.

Lemma contains_of_string (p s : string) :
  Wide.contains (Wide.of_string p) (Wide.of_string s) = PyStr.contains p s.
Proof.
  induction s as [|c s IH].
  - cbn [Wide.of_string Wide.contains PyStr.contains].
    by rewrite <- startswith_of_string.
  - cbn [Wide.of_string Wide.contains PyStr.contains].
    rewrite IH. f_equal. apply (startswith_of_string p (String c s)).
Qed.

Lemma isspace_of_ascii (c : ascii) :
  is_ascii c = true -> Wide.isspace (N_of_ascii c) = PyStr.isspace c.
Proof. destruct c as [[] [] [] [] [] [] [] []]; by vm_compute. Qed.

Lemma lower_at_of_ascii (pre suf : Wide.text) (c : ascii) :
  is_ascii c = true ->
  Wide.lower_at pre (N_of_ascii c) suf = [N_of_ascii (PyStr.lower_char c)].
Proof. destruct c as [[] [] [] [] [] [] [] []]; by vm_compute. Qed.

Lemma lstrip_of_string (s : string) :
  ascii_only s = true ->
  Wide.lstrip (Wide.of_string s) = Wide.of_string (PyStr.lstrip s).
Proof.
  induction s as [|c s IH]; [done|].
  cbn [ascii_only all_chars Wide.of_string Wide.lstrip PyStr.lstrip].
  intros [Hc Hs]%andb_prop. rewrite (isspace_of_ascii _ Hc).
  destruct (PyStr.isspace c); [by apply IH|done].
Qed.

Lemma rstrip_of_string (s : string) :
  ascii_only s = true ->
  Wide.rstrip (Wide.of_string s) = Wide.of_string (PyStr.rstrip s).
Proof.
  induction s as [|c s IH]; [done|].
  cbn [ascii_only all_chars Wide.of_string Wide.rstrip PyStr.rstrip].
  intros [Hc Hs]%andb_prop. rewrite (IH Hs), (isspace_of_ascii _ Hc).
  destruct (PyStr.rstrip s); [by destruct (PyStr.isspace c)|done].
Qed.

Lemma lower_go_of_string (s : string) (pre : Wide.text) :
  ascii_only s = true ->
  Wide.lower_go pre (Wide.of_string s) = Wide.of_string (PyStr.lower s).
Proof.
  revert pre; induction s as [|c s IH]; intros pre; [done|].
  cbn [ascii_only all_chars Wide.of_string Wide.lower_go PyStr.lower].
  intros [Hc Hs]%andb_prop. by rewrite (lower_at_of_ascii _ _ _ Hc), IH.
Qed.

Lemma ascii_only_slice (n : nat) (s : string) :
  ascii_only s = true -> ascii_only (PyStr.slice_to n s) = true.
Proof.
  revert n; induction s as [|c s IH]; intros [|n]; try done.
  cbn [ascii_only all_chars PyStr.slice_to].
  intros [Hc Hs]%andb_prop. rewrite Hc. by apply IH.
Qed.

Lemma ascii_only_lstrip (s : string) :
  ascii_only s = true -> ascii_only (PyStr.lstrip s) = true.
Proof.
  induction s as [|c s IH]; [done|]. intros Hs.
  cbn [PyStr.lstrip]. destruct (PyStr.isspace c); [|done].
  apply IH. by apply andb_prop in Hs as [_ Hs].
Qed.

(** On a source of ASCII characters, detection on code points is the
    detection [setup_command] is modelled with. *)
Lemma detect_of_string (tmp_path script : string) :
  ascii_only script = true ->
  Wide.detect tmp_path (Wide.of_string script) = detect tmp_path script.
Proof.
  intros Hs. unfold Wide.detect, detect, Wide.strip, PyStr.strip, Wide.slice_to,
    Wide.lower.
  rewrite <- of_string_slice.
  rewrite lstrip_of_string, rstrip_of_string, lower_go_of_string
    by auto using ascii_only_slice, ascii_only_lstrip.
  by rewrite !startswith_of_string, !contains_of_string.
Qed.

End WideAscii.

(** *** Detection on concrete sources *)

Example detect_kelvin_sign :
  @Wide.detect Wide.demo_unicode "/tmp/x" (8490%N :: Wide.of_string "otlin rocks")
  = kotlin_dialect "/tmp/x".
Proof. reflexivity. Qed.

Example detect_capitals :
  @Wide.detect Wide.demo_unicode "/tmp/x" (Wide.of_string "// KoTLiN script")
  = kotlin_dialect "/tmp/x".
Proof. reflexivity. Qed.

Example detect_class_before_kotlin :
  @Wide.detect Wide.demo_unicode "/tmp/x"
    (Wide.of_string "data class P(val x: Int); fun main() {}")
  = java_dialect "/tmp/x".
Proof. reflexivity. Qed.

Example detect_marker_after_200 :
  @Wide.detect Wide.demo_unicode "/tmp/x"
    (repeat 32%N 200 ++ Wide.of_string "fun main() {}")%list
  = java_dialect "/tmp/x".
Proof. reflexivity. Qed.

Example detect_marker_at_193 :
  @Wide.detect Wide.demo_unicode "/tmp/x"
    (repeat 32%N 192 ++ Wide.of_string "fun main() {}")%list
  = kotlin_dialect "/tmp/x".
Proof. reflexivity. Qed.

Lemma detect_reads_first_200_witness :
  @Wide.detect Wide.demo_unicode "/tmp/x"
    ((repeat 32%N 194 ++ Wide.of_string "public") ++ Wide.of_string " class Main {}")%list
  = @Wide.detect_by_prefix Wide.demo_unicode "/tmp/x"
      (repeat 32%N 194 ++ Wide.of_string "public")%list.
Proof.
  apply (@detect_reads_first_200 Wide.demo_unicode "/tmp/x"
           (repeat 32%N 194 ++ Wide.of_string "public")%list
           (Wide.of_string " class Main {}")).
  left. reflexivity.
Defined.

(** ** Character classes *)

Lemma all_chars_app (P : ascii -> bool) (a b : string) :
  all_chars P (a +:+ b) = all_chars P a && all_chars P b.
Proof. induction a as [|c a IH]; [done|]. cbn. by rewrite IH, andb_assoc. Qed.

Lemma all_chars_impl (P Q : ascii -> bool) (s : string) :
  (forall c, P c = true -> Q c = true) -> all_chars P s = true -> all_chars Q s = true.
Proof.
  intros HPQ. induction s as [|c s IH]; [done|]. cbn.
  intros [Hc Hs]%andb_prop. by rewrite (HPQ _ Hc), IH.
Qed.

Lemma all_chars_replace_go (P : ascii -> bool) (old new s : string) (skip : nat) :
  all_chars P new = true -> all_chars P s = true ->
  all_chars P (PyStr.replace_go old new skip s) = true.
Proof.
  intros Hnew. revert skip. induction s as [|c s IH]; intros skip; [done|].
  cbn [all_chars]. intros [Hc Hs]%andb_prop.
  cbn [PyStr.replace_go]. destruct skip as [|k]; [|by apply IH].
  destruct (PyStr.startswith old (String c s)).
  - rewrite all_chars_app, Hnew. by apply IH.
  - cbn. rewrite Hc. by apply IH.
Qed.

Lemma all_chars_literal (P : ascii -> bool) (s : string) :
  (forall c, is_plain_char c = true -> P c = true) -> P " "%char = true ->
  all_chars is_literal_char s = true -> all_chars P s = true.
Proof.
  intros HP Hsp. apply all_chars_impl. intros c [H|H]%orb_prop; [by apply HP|].
  by apply Ascii.eqb_eq in H as ->.
Qed.

Ltac all_chars_pieces HP Hsp :=
  rewrite ?all_chars_app;
  repeat match goal with
         | H : all_chars ?P ?s = true |- context [all_chars ?P ?s] => rewrite H
         | |- context [all_chars ?P ?s] =>
             rewrite (all_chars_literal P s HP Hsp) by reflexivity
         end.

(** ** [str.format] without markup *)

Lemma format_brace_free `{PyFormat.FormatFields} (s : string)
    (kw : list (string * string)) :
  brace_free s = true -> PyFormat.format s kw = ret s.
Proof.
  unfold PyFormat.format, brace_free. induction s as [|c s IH]; [done|].
  cbn [all_chars]. intros [Hc Hs]%andb_prop. unfold is_brace in Hc.
  apply negb_true_iff, orb_false_elim in Hc as [Hl Hr].
  cbn [PyFormat.format_go]. rewrite Hl, Hr, (IH Hs). done.
Qed.

(** ** [shlex.split] *)

Lemma plain_brace_free s : plain s = true -> brace_free s = true.
Proof.
  apply all_chars_impl. unfold is_plain_char. intros c H.
  by apply andb_prop in H as [[H _]%andb_prop _].
Qed.

Lemma plain_no_quoting s : plain s = true -> no_quoting s = true.
Proof.
  apply all_chars_impl. unfold is_plain_char. intros c H.
  apply andb_prop in H as [[_ H1]%andb_prop H2]. by rewrite H1, H2.
Qed.

Lemma ws_free_snoc tok c :
  ws_free tok = true -> Shlex.is_whitespace c = false -> ws_free (Shlex.snoc tok c) = true.
Proof.
  intros Ht Hc. unfold ws_free, Shlex.snoc. rewrite all_chars_app. fold (ws_free tok).
  rewrite Ht. cbn. by rewrite Hc.
Qed.

Lemma emit_ws_free tok q :
  ws_free tok = true -> Forall (fun t => ws_free t = true) (Shlex.emit tok q []).
Proof. intros H. unfold Shlex.emit. destruct (_ || _); by repeat constructor. Qed.

Lemma split_go_tokens_ws_free (s : string) :
  no_quoting s = true ->
  forall st esc tok q,
    st = Shlex.Blank \/ st = Shlex.Word -> ws_free tok = true ->
    exists toks, Shlex.split_go s st esc tok q = ret toks
                 /\ Forall (fun t => ws_free t = true) toks.
Proof.
  unfold no_quoting. induction s as [|c s IH]; intros Hs st esc tok q Hst Htok.
  - destruct Hst as [-> | ->]; cbn; eauto using emit_ws_free.
  - cbn [all_chars] in Hs. apply andb_prop in Hs as [Hc Hs].
    apply andb_prop in Hc as [Hq He]. apply negb_true_iff in Hq, He.
    specialize (IH Hs).
    destruct Hst as [-> | ->]; cbn [Shlex.split_go]; rewrite ?Hq, ?He;
      destruct (Shlex.is_whitespace c) eqn:Hw.
    + destruct (_ || _).
      * destruct (IH Shlex.Blank Shlex.Blank "" false) as (toks & -> & Hall); auto.
        exists (tok :: toks). split; [done|]. by constructor.
      * apply IH; auto.
    + apply IH; auto. cbn. by rewrite Hw.
    + destruct (_ || _).
      * destruct (IH Shlex.Blank Shlex.Blank "" false) as (toks & -> & Hall); auto.
        exists (tok :: toks). split; [done|]. by constructor.
      * apply IH; auto.
    + apply IH; auto using ws_free_snoc.
Qed.

Lemma split_tokens_ws_free (s : string) :
  no_quoting s = true ->
  exists toks, Shlex.split s = ret toks /\ Forall (fun t => ws_free t = true) toks.
Proof. intros H. apply split_go_tokens_ws_free; auto. Qed.

(** [escapedstate] is set whenever the escape state is entered. *)
Lemma split_go_esc (s : string) :
  forall st esc esc' tok q,
    st <> Shlex.Escape ->
    Shlex.split_go s st esc tok q = Shlex.split_go s st esc' tok q.
Proof.
  induction s as [|c s IH]; intros st esc esc' tok q Hst.
  - by destruct st.
  - destruct st; try done; cbn [Shlex.split_go];
      repeat match goal with
             | |- context [if ?b then _ else _] => destruct b
             end; try done; by apply IH.
Qed.

Lemma bind_ret_id {A} (m : result A) : (try! x := m in ret x) = m.
Proof. by destruct m. Qed.

Lemma split_go_app (a b : string) :
  forall st esc tok q toks,
    Shlex.split_go a st esc tok q = ret toks ->
    Shlex.split_go (a +:+ String " " b) st esc tok q
    = (try! rest := Shlex.split b in ret (toks ++ rest)%list).
Proof.
  induction a as [|c a IH]; intros st esc tok q toks.
  - destruct st; try done; cbn [Shlex.split_go String.append];
      change (Shlex.is_whitespace " ") with true; cbn match;
      unfold Shlex.emit; destruct (negb (tok =? "") || q) eqn:Hemit;
      intros [= <-]; try done; cbn [app];
      rewrite bind_ret_id; apply orb_false_elim in Hemit as [Ht ->];
      apply negb_false_iff, String.eqb_eq in Ht; subst tok;
      by apply split_go_esc.
  - change (String c a +:+ String " " b) with (String c (a +:+ String " " b)).
    destruct st; cbn [Shlex.split_go];
      repeat match goal with
             | |- context [if ?b then _ else _] => destruct b
             end;
      try (by apply IH).
    all: destruct (Shlex.split_go a Shlex.Blank Shlex.Blank "" false) as [e|r] eqn:Ha;
      cbn; intros [= <-]; rewrite (IH _ _ _ _ _ Ha); by destruct (Shlex.split b).
Qed.

Lemma split_app (a b : string) (toks : list string) :
  Shlex.split a = ret toks ->
  Shlex.split (a +:+ " " +:+ b) = (try! rest := Shlex.split b in ret (toks ++ rest)%list).
Proof. apply split_go_app. Qed.

Lemma split_go_word (s : string) :
  ws_free s = true -> no_quoting s = true ->
  forall esc tok q,
    Shlex.split_go s Shlex.Word esc tok q = ret (Shlex.emit (tok +:+ s) q []).
Proof.
  unfold ws_free, no_quoting. induction s as [|c s IH]; intros Hw Hs esc tok q.
  - cbn. by rewrite append_nil_r.
  - cbn [all_chars] in Hw, Hs. apply andb_prop in Hw as [Hc Hw], Hs as [Hc' Hs].
    apply andb_prop in Hc' as [Hq He]. apply negb_true_iff in Hc, Hq, He.
    cbn [Shlex.split_go]. rewrite Hc, Hq, He, (IH Hw Hs).
    unfold Shlex.snoc. by rewrite append_assoc.
Qed.

Lemma split_word (s : string) :
  ws_free s = true -> no_quoting s = true -> s <> "" -> Shlex.split s = ret [s].
Proof.
  intros Hw Hs Hne. destruct s as [|c s]; [done|].
  unfold ws_free, no_quoting in *. cbn [all_chars] in Hw, Hs.
  apply andb_prop in Hw as [Hc Hw], Hs as [Hc' Hs].
  apply andb_prop in Hc' as [Hq He]. apply negb_true_iff in Hc, Hq, He.
  unfold Shlex.split. cbn [Shlex.split_go]. rewrite Hc, Hq, He.
  by rewrite split_go_word.
Qed.

Lemma ws_free_false_app (a b : string) : ws_free a = false -> ws_free (a +:+ b) = false.
Proof. intros H. unfold ws_free in *. by rewrite all_chars_app, H. Qed.

Lemma not_in_ws_free (s : string) (toks : list string) :
  ws_free s = false -> Forall (fun t => ws_free t = true) toks -> s ∉ toks.
Proof.
  intros Hs Hall Hin. rewrite Forall_forall in Hall.
  specialize (Hall _ Hin). congruence.
Qed.

(** ** The guard source *)

Lemma numeral_string_of_uint (d : Decimal.uint) : numeral (NilEmpty.string_of_uint d) = true.
Proof. induction d; simpl; auto. Qed.

Lemma numeral_str_of_int (z : Z) : numeral (PyStr.str_of_int z) = true.
Proof.
  unfold PyStr.str_of_int, NilZero.string_of_int.
  destruct (Z.to_int z) as [d|d]; unfold NilZero.string_of_uint.
  - destruct d; try reflexivity; apply (numeral_string_of_uint (_ d)).
  - simpl. destruct d; try reflexivity; apply (numeral_string_of_uint (_ d)).
Qed.

Lemma exit_args_numeral (d rest : string) :
  numeral d = true -> exit_args (d +:+ rest) = exit_args rest.
Proof.
  induction d as [|c d IH]; [done|].
  intros [Hc Hd]%andb_prop.
  change (String c d +:+ rest) with (String c (d +:+ rest)).
  cbn [exit_args PyStr.startswith].
  destruct (Ascii.eqb_spec "S" c) as [<-|]; [discriminate|].
  by apply IH.
Qed.

Lemma until_paren_numeral (d rest : string) :
  numeral d = true -> until_paren (d +:+ String ")" rest) = d.
Proof.
  induction d as [|c d IH]; simpl; [done|].
  intros [Hc Hd]%andb_prop.
  destruct (Ascii.eqb_spec c ")") as [->|]; [discriminate|].
  by rewrite IH.
Qed.

Lemma contains_numeral (a : ascii) (p d rest : string) :
  is_numeral_char a = false -> numeral d = true ->
  PyStr.contains (String a p) (d +:+ rest) = PyStr.contains (String a p) rest.
Proof.
  intros Ha. induction d as [|c d IH]; [done|].
  intros [Hc Hd]%andb_prop.
  change (String c d +:+ rest) with (String c (d +:+ rest)).
  cbn [PyStr.contains PyStr.startswith].
  destruct (Ascii.eqb_spec a c) as [->|]; [congruence|].
  by apply IH.
Qed.

Lemma guard_source_text `{PyFormat.FormatFields} (vt vm vc : string) :
  PyFormat.format RESOURCE_LIMIT_TEMPLATE
    [("timeout", vt); ("memory_limit", vm); ("TIMEOUT_EXIT_CODE", vc)]
  = ret (guard_text vt vm vc).
Proof. vm_compute. reflexivity. Qed.

(** ** Files *)

Lemma lookup_open_w (path : string) (fs : files) : open_w path fs !! path = Some "".
Proof. apply lookup_insert_eq. Qed.

Lemma lookup_open_w_ne (path other : string) (fs : files) :
  path ≠ other -> open_w path fs !! other = fs !! other.
Proof. intros. by apply lookup_insert_ne. Qed.

Lemma lookup_f_write (path text : string) (fs : files) :
  f_write path text fs !! path = (fun content => content +:+ text) <$> fs !! path.
Proof. apply lookup_alter_eq. Qed.

Lemma lookup_f_write_ne (path other text : string) (fs : files) :
  path ≠ other -> f_write path text fs !! other = fs !! other.
Proof. intros. by apply lookup_alter_ne. Qed.

Lemma path_ne (tmp_path a b : string) : a ≠ b -> tmp_path +:+ a ≠ tmp_path +:+ b.
Proof. intros Hab Heq. by apply Hab, (inj (String.append tmp_path)). Qed.


(** ** Dialect detection and the command strings *)

Lemma detect_cases tmp_path script :
  detect tmp_path script = java_dialect tmp_path
  \/ detect tmp_path script = kotlin_dialect tmp_path.
Proof.
  unfold detect.
  destruct (PyStr.startswith _ _ || PyStr.contains "class " _); [by left|].
  destruct (_ || _); [by right|by left].
Qed.

Lemma source_file_detect tmp_path script :
  source_file (detect tmp_path script)
  = tmp_path +:+ (if is_kotlin (detect tmp_path script) then "/Main.kt" else "/Main.java").
Proof. by destruct (detect_cases tmp_path script) as [-> | ->]. Qed.

Lemma source_file_ne_resource tmp_path script :
  source_file (detect tmp_path script) ≠ tmp_path +:+ "/ResourceLimit.java".
Proof.
  rewrite source_file_detect. apply path_ne.
  by destruct (is_kotlin (detect tmp_path script)).
Qed.

Lemma is_set_path (tmp_path name : string) (c : ascii) :
  is_set (Some (tmp_path +:+ String c name)) = true.
Proof. by destruct tmp_path. Qed.

Lemma all_chars_compile_cl (P : ascii -> bool) self tmp_path script resource_file :
  (forall c, is_plain_char c = true -> P c = true) ->
  P " "%char = true ->
  all_chars P (compiler_cl self) = true -> all_chars P tmp_path = true ->
  (forall r, resource_file = Some r -> all_chars P r = true) ->
  all_chars P (compile_cl self tmp_path (detect tmp_path script) resource_file) = true.
Proof.
  intros HP Hsp Hcl Htmp Hres. unfold compile_cl.
  destruct (detect_cases tmp_path script) as [-> | ->];
    cbn [is_kotlin source_file java_dialect kotlin_dialect].
  - destruct resource_file as [[|c r]|]; [| pose proof (Hres _ eq_refl) |];
      by all_chars_pieces HP Hsp.
  - by all_chars_pieces HP Hsp.
Qed.

Lemma all_chars_run_cl_string (P : ascii -> bool) self tmp_path script :
  (forall c, is_plain_char c = true -> P c = true) ->
  P " "%char = true ->
  all_chars P (run_cl self) = true -> all_chars P tmp_path = true ->
  all_chars P (run_cl_string self tmp_path (detect tmp_path script)) = true.
Proof.
  intros HP Hsp Hcl Htmp. unfold run_cl_string.
  destruct (detect_cases tmp_path script) as [-> | ->];
    cbn [is_kotlin source_file class_name java_dialect kotlin_dialect].
  - by all_chars_pieces HP Hsp.
  - assert (all_chars P (PyStr.replace ".kt" ".jar" (tmp_path +:+ "/Main.kt")) = true).
    { apply all_chars_replace_go; by all_chars_pieces HP Hsp. }
    by all_chars_pieces HP Hsp.
Qed.

Lemma plain_char_brace c : is_plain_char c = true -> negb (is_brace c) = true.
Proof. unfold is_plain_char. by intros [[H _]%andb_prop _]%andb_prop. Qed.

Lemma plain_char_quoting c :
  is_plain_char c = true -> negb (Shlex.is_quote c) && negb (Shlex.is_escape c) = true.
Proof.
  unfold is_plain_char. intros [[_ H1]%andb_prop H2]%andb_prop. by rewrite H1, H2.
Qed.

(** The written source file. *)
Lemma lookup_write_source_file script d resource_file fs :
  write_source_file script d resource_file fs !! source_file d =
  Some (if is_kotlin d
        then if PyStr.contains "fun main" script then script
             else "fun main() {" +:+ nl +:+ script +:+ "}" +:+ nl
        else java_main_source (is_set resource_file) script).
Proof.
  unfold write_source_file, java_main_source.
  destruct (is_kotlin d), (PyStr.contains "fun main" script), (is_set resource_file);
    cbn [negb]; rewrite !lookup_f_write, lookup_open_w; cbn;
    by rewrite ?append_assoc.
Qed.

Lemma lookup_write_source_file_ne script d resource_file fs path :
  source_file d ≠ path ->
  write_source_file script d resource_file fs !! path = fs !! path.
Proof.
  intros Hne. unfold write_source_file.
  repeat match goal with |- context [if ?b then _ else _] => destruct b end;
    rewrite ?lookup_f_write_ne by done; by apply lookup_open_w_ne.
Qed.

(** The command vector of the compile step when nothing in the command
    string needs quoting and the scratch directory has no blank. *)
Lemma split_path (tmp_path name : string) (c : ascii) :
  plain tmp_path = true -> ws_free tmp_path = true ->
  plain (String c name) = true -> ws_free (String c name) = true ->
  Shlex.split (tmp_path +:+ String c name) = ret [tmp_path +:+ String c name].
Proof.
  intros Hp Hw Hnp Hnw. apply split_word.
  - unfold ws_free in *. by rewrite all_chars_app, Hw, Hnw.
  - apply plain_no_quoting. unfold plain in *. by rewrite all_chars_app, Hp, Hnp.
  - by destruct tmp_path.
Qed.

Lemma split_compile_cl self tmp_path script resource_file toks :
  plain tmp_path = true -> ws_free tmp_path = true ->
  Shlex.split (compiler_cl self) = ret toks ->
  (resource_file = None \/ resource_file = Some (tmp_path +:+ "/ResourceLimit.java")) ->
  let d := detect tmp_path script in
  Shlex.split (compile_cl self tmp_path d resource_file)
  = ret (toks ++
         if is_kotlin d
         then [source_file d; "-include-runtime"; "-d"; tmp_path +:+ "/Main.jar"]
         else match resource_file with
              | Some r => [source_file d; r]
              | None => [source_file d]
              end)%list.
Proof.
  intros Hp Hw Hcl Hres d. subst d. unfold compile_cl.
  destruct (detect_cases tmp_path script) as [-> | ->];
    cbn [is_kotlin source_file java_dialect kotlin_dialect].
  - destruct Hres as [-> | ->].
    + rewrite (split_app _ _ _ Hcl), split_path; done.
    + assert (tmp_path +:+ "/ResourceLimit.java" <> "") as Hne by (by destruct tmp_path).
      destruct (tmp_path +:+ "/ResourceLimit.java") as [|c r] eqn:Hr; [done|].
      rewrite <- Hr.
      rewrite (split_app _ _ _ Hcl).
      rewrite (split_app _ _ [tmp_path +:+ "/Main.java"]) by (by apply split_path).
      rewrite split_path; done.
  - change (compiler_cl self +:+ " " +:+ (tmp_path +:+ "/Main.kt")
            +:+ " -include-runtime -d " +:+ tmp_path +:+ "/Main.jar")
      with (compiler_cl self +:+ " " +:+ (tmp_path +:+ "/Main.kt")
            +:+ " " +:+ "-include-runtime" +:+ " " +:+ "-d" +:+ " "
            +:+ (tmp_path +:+ "/Main.jar")).
    rewrite (split_app _ _ _ Hcl).
    rewrite (split_app _ _ [tmp_path +:+ "/Main.kt"]) by (by apply split_path).
    rewrite (split_app _ _ ["-include-runtime"]) by done.
    rewrite (split_app _ _ ["-d"]) by done.
    rewrite split_path; done.
Qed.

(** ** The executor *)

Section ExecutorProperties.

Context `{PyFormat.FormatFields} `{CostModel} `{!ExecutorModule} `{!ProcessRunner}.

(** The optional path of the guard file, as [setup_command] binds it. *)
Abbreviation resource_file_of self tmp_path d :=
  (if wants_guard self d then Some (tmp_path +:+ "/ResourceLimit.java") else None).

Lemma resource_limit_source_text (self : JvmExecutor) :
  resource_limit_source self = ret (guard_of self).
Proof. apply guard_source_text. Qed.

Lemma write_resource_file_eq self tmp_path d fs :
  write_resource_file self tmp_path d fs =
  if wants_guard self d
  then (f_write (tmp_path +:+ "/ResourceLimit.java") (guard_of self)
          (open_w (tmp_path +:+ "/ResourceLimit.java") fs),
        ret (Some (tmp_path +:+ "/ResourceLimit.java")))
  else (fs, ret None).
Proof.
  unfold write_resource_file, wants_guard.
  destruct (negb (is_kotlin d) && _); [|done].
  by rewrite resource_limit_source_text.
Qed.

Lemma setup_command_eq self tmp_path script fs :
  setup_command self tmp_path script fs =
  let d := detect tmp_path script in
  (write_source_file script d (resource_file_of self tmp_path d)
     (if wants_guard self d
      then f_write (tmp_path +:+ "/ResourceLimit.java") (guard_of self)
             (open_w (tmp_path +:+ "/ResourceLimit.java") fs)
      else fs),
   stages self tmp_path d (compile_cmd self tmp_path d (resource_file_of self tmp_path d))).
Proof.
  unfold setup_command. rewrite write_resource_file_eq.
  by destruct (wants_guard self (detect tmp_path script)).
Qed.

Lemma setup_command_stages self tmp_path script fs :
  (setup_command self tmp_path script fs).2
  = stages self tmp_path (detect tmp_path script)
      (compile_cmd self tmp_path (detect tmp_path script)
         (resource_file_of self tmp_path (detect tmp_path script))).
Proof. by rewrite setup_command_eq. Qed.

Lemma is_set_guard self tmp_path d :
  is_set (resource_file_of self tmp_path d) = wants_guard self d.
Proof. destruct (wants_guard self d); [apply is_set_path|done]. Qed.

Lemma resource_file_cases self tmp_path d :
  resource_file_of self tmp_path d = None
  \/ resource_file_of self tmp_path d = Some (tmp_path +:+ "/ResourceLimit.java").
Proof. destruct (wants_guard self d); auto. Qed.

Lemma lookup_source_file self tmp_path script fs :
  (setup_command self tmp_path script fs).1 !! source_file (detect tmp_path script)
  = Some (if is_kotlin (detect tmp_path script)
          then if PyStr.contains "fun main" script then script
               else "fun main() {" +:+ nl +:+ script +:+ "}" +:+ nl
          else java_main_source (wants_guard self (detect tmp_path script)) script).
Proof.
  rewrite setup_command_eq. cbn [fst].
  by rewrite lookup_write_source_file, is_set_guard.
Qed.

Lemma lookup_resource_file self tmp_path script fs :
  (setup_command self tmp_path script fs).1 !! (tmp_path +:+ "/ResourceLimit.java")
  = if wants_guard self (detect tmp_path script) then Some (guard_of self)
    else fs !! (tmp_path +:+ "/ResourceLimit.java").
Proof.
  rewrite setup_command_eq. cbn [fst].
  rewrite lookup_write_source_file_ne by apply source_file_ne_resource.
  destruct (wants_guard self _); [|done].
  by rewrite lookup_f_write, lookup_open_w.
Qed.

Lemma emitted_stages self tmp_path d compile
    (feed : nat -> ProcessExecuteResult) :
  emitted (stages self tmp_path d compile) feed 0 =
  match compile with
  | inl e => ([], Some e)
  | inr compile =>
      if success (feed 0) then
        match run_cmd self tmp_path d with
        | inl e => ([compile], Some e)
        | inr run => ([compile; run], None)
        end
      else ([compile], Some (CompileError (stderr (feed 0))))
  end.
Proof.
  unfold stages. destruct compile as [e|compile]; [done|].
  cbn [emitted]. destruct (success (feed 0)); cbn [negb]; [|done].
  by destruct (run_cmd self tmp_path d).
Qed.

Lemma compile_cmd_brace_free self tmp_path script :
  brace_free (compiler_cl self) = true ->
  brace_free tmp_path = true ->
  compile_cmd self tmp_path (detect tmp_path script)
    (resource_file_of self tmp_path (detect tmp_path script))
  = Shlex.split (compile_cl self tmp_path (detect tmp_path script)
                   (resource_file_of self tmp_path (detect tmp_path script))).
Proof.
  intros Hcl Htmp. unfold compile_cmd.
  rewrite format_brace_free; [done|].
  apply all_chars_compile_cl; auto using plain_char_brace.
  intros r. destruct (wants_guard self _); [|done]. intros [= <-].
  unfold brace_free in Htmp. by rewrite all_chars_app, Htmp.
Qed.

Lemma run_cmd_brace_free self tmp_path script :
  brace_free (run_cl self) = true ->
  brace_free tmp_path = true ->
  run_cmd self tmp_path (detect tmp_path script)
  = Shlex.split (run_cl_string self tmp_path (detect tmp_path script)).
Proof.
  intros Hcl Htmp. unfold run_cmd.
  rewrite format_brace_free; [done|].
  apply all_chars_run_cl_string; auto using plain_char_brace.
Qed.

(** C7: in the assembled Java source the generated [main] first calls
    [ResourceLimit.checkTimeout()], when guard code is injected, and then
    runs the guest body inside [try { ... } catch (Exception e)
    { e.printStackTrace(); }]: the text written to [Main.java] is the
    wrapper with the script between the opening of the [try] and the
    [catch], the call of the check standing before the [try]. *)
Theorem java_source_wraps_script self tmp_path script fs :
  is_kotlin (detect tmp_path script) = false ->
  (setup_command self tmp_path script fs).1 !! (tmp_path +:+ "/Main.java")
  = Some (java_main_source (truthy (timeout self) || truthy (memory_limit self)) script)
  /\ java_main_source true script
     = "public class Main {" +:+ nl
       +:+ "    public static void main(String[] args) {" +:+ nl
       +:+ "        ResourceLimit.checkTimeout();" +:+ nl
       +:+ "        try {" +:+ nl
       +:+ script
       +:+ "        } catch (Exception e) {" +:+ nl
       +:+ "            e.printStackTrace();" +:+ nl
       +:+ "        }" +:+ nl
       +:+ "    }" +:+ nl
       +:+ "}" +:+ nl.
Proof.
  intros Hjava. split; [|reflexivity].
  pose proof (lookup_source_file self tmp_path script fs) as Hfile.
  rewrite source_file_detect, Hjava in Hfile. rewrite Hfile.
  unfold wants_guard. by rewrite Hjava.
Qed.

(** C4: the guard file [ResourceLimit.java] is written, and its path is
    added to the command of the compile stage, exactly when the dialect is
    the class-wrapper (Java) dialect and a timeout or a memory limit is
    requested (set and not zero); the script-style (Kotlin) dialect gets
    neither, whatever the limits.  The last part gives the command vector
    when the compiler command line and the scratch directory need no
    quoting and the directory has no blank. *)
Theorem guard_file_iff self tmp_path script fs :
  let d := detect tmp_path script in
  let resource_file := tmp_path +:+ "/ResourceLimit.java" in
  (wants_guard self d = true <->
     is_kotlin d = false
     /\ (truthy (timeout self) = true \/ truthy (memory_limit self) = true))
  /\ (setup_command self tmp_path script fs).1 !! resource_file
     = (if wants_guard self d then Some (guard_of self) else fs !! resource_file)
  /\ (setup_command self tmp_path script fs).2
     = stages self tmp_path d
         (try! cl := PyFormat.format
                       (if is_kotlin d
                        then compiler_cl self +:+ " " +:+ source_file d
                             +:+ " -include-runtime -d " +:+ tmp_path +:+ "/Main.jar"
                        else if wants_guard self d
                        then compiler_cl self +:+ " " +:+ source_file d
                             +:+ " " +:+ resource_file
                        else compiler_cl self +:+ " " +:+ source_file d)
                       [("source", Shlex.quote (source_file d));
                        ("workdir", Shlex.quote tmp_path)] in
          Shlex.split cl)
  /\ (forall toks,
        plain (compiler_cl self) = true ->
        plain tmp_path = true -> ws_free tmp_path = true ->
        Shlex.split (compiler_cl self) = ret toks ->
        next_stage (setup_command self tmp_path script fs).2
        = Some (toks ++
                if is_kotlin d
                then [source_file d; "-include-runtime"; "-d"; tmp_path +:+ "/Main.jar"]
                else if wants_guard self d then [source_file d; resource_file]
                else [source_file d])%list).
Proof.
  intros d resource_file. split; [split|split; [|split]].
  - unfold wants_guard. intros [Hk Ht]%andb_prop.
    split; [by destruct (is_kotlin d)|]. by apply orb_prop.
  - unfold wants_guard. intros [-> [-> | ->]]; [done|]. cbn. apply orb_true_r.
  - apply lookup_resource_file.
  - rewrite setup_command_stages. fold d. f_equal.
    unfold compile_cmd, compile_cl. fold resource_file.
    destruct (is_kotlin d); [done|].
    destruct (wants_guard self d); [|done].
    by destruct tmp_path.
  - intros toks Hcl Htmp Hws Htoks. subst d resource_file.
    rewrite setup_command_stages.
    rewrite compile_cmd_brace_free by auto using plain_brace_free.
    pose proof (split_compile_cl self tmp_path script
                  (resource_file_of self tmp_path (detect tmp_path script)) toks
                  Htmp Hws Htoks (resource_file_cases _ _ _)) as Hs.
    cbn zeta in Hs. rewrite Hs. cbn [stages next_stage]. do 2 f_equal.
    by destruct (is_kotlin _), (wants_guard self _).
Qed.

(** C9: for a class-wrapper (Java) request with a memory limit and no
    timeout the guard file is still written, with 0 printed for the
    timeout: its timeout thread is present, sleeps [Thread.sleep(0)] and
    then exits with the timeout exit code. *)
Theorem guard_without_timeout self tmp_path script fs :
  is_kotlin (detect tmp_path script) = false ->
  truthy (timeout self) = false ->
  truthy (memory_limit self) = true ->
  (setup_command self tmp_path script fs).1 !! (tmp_path +:+ "/ResourceLimit.java")
  = Some (flat (guard_header "0" (PyStr.str_of_int (or_zero (memory_limit self)))
                ++ timeout_watchdog "0" (PyStr.str_of_int TIMEOUT_EXIT_CODE)
                ++ memory_watchdog (PyStr.str_of_int TIMEOUT_EXIT_CODE)
                ++ check_timeout (PyStr.str_of_int TIMEOUT_EXIT_CODE))).
Proof.
  intros Hjava Ht Hm.
  rewrite lookup_resource_file.
  unfold wants_guard. rewrite Hjava, Ht, Hm. cbn [negb andb orb].
  assert (or_zero (timeout self) = 0%Z) as Hz
    by (unfold or_zero; rewrite Ht; by destruct (timeout self)).
  unfold guard_of, guard_text. by rewrite Hz.
Qed.

(** C6: the guard source ends the process with one and the same exit
    code, the timeout exit code, on every path that ends it: the only calls
    of [System.exit] are one in the timeout thread, one in the memory
    thread and one in [checkTimeout], each with [TIMEOUT_EXIT_CODE]; the
    memory thread is started under [memoryLimitBytes > 0] and sleeps
    [Thread.sleep(100)] between two polls. *)
Theorem guard_exits_with_timeout_code self :
  let t := PyStr.str_of_int (or_zero (timeout self)) in
  let m := PyStr.str_of_int (or_zero (memory_limit self)) in
  let code := PyStr.str_of_int TIMEOUT_EXIT_CODE in
  resource_limit_source self
  = ret (flat (guard_header t m ++ timeout_watchdog t code
               ++ memory_watchdog code ++ check_timeout code))
  /\ exit_args (flat (guard_header t m)) = []
  /\ exit_args (flat (timeout_watchdog t code)) = [code]
  /\ exit_args (flat (memory_watchdog code)) = [code]
  /\ exit_args (flat (check_timeout code)) = [code]
  /\ exit_args (flat (guard_header t m ++ timeout_watchdog t code
                      ++ memory_watchdog code ++ check_timeout code))
     = [code; code; code]
  /\ PyStr.contains "if (memoryLimitBytes > 0) {" (flat (memory_watchdog code)) = true
  /\ PyStr.contains "Thread.sleep(100);" (flat (memory_watchdog code)) = true.
Proof.
  intros t m code.
  assert (Ht : numeral t = true) by apply numeral_str_of_int.
  assert (Hm : numeral m = true) by apply numeral_str_of_int.
  assert (Hc : numeral code = true) by apply numeral_str_of_int.
  split; [apply guard_source_text|].
  clearbody t m code.
  split; [|split; [|split; [|split; [|split; [|split]]]]].
  1-5: cbn;
    repeat (first [ rewrite (exit_args_numeral _ _ Ht)
                  | rewrite (exit_args_numeral _ _ Hm)
                  | rewrite (exit_args_numeral _ _ Hc)
                  | rewrite (until_paren_numeral _ _ Hc)
                  | progress cbn ]); reflexivity.
  - reflexivity.
  - cbn. rewrite (contains_numeral "T" _ _ _ eq_refl Hc). reflexivity.
Qed.

(** C2 (amended): [setup_command] emits at most two stages, in order:
    first the compile command, when the command string yields one; the run
    command is built and emitted only after the result of the compile stage
    has been sent and found successful, and the generator returns after the
    run stage.  After an unsuccessful compile result the compile stage is
    the only one and the generator ends with a compile failure. *)
Theorem stages_in_order self tmp_path script fs
    (feed : nat -> ProcessExecuteResult) :
  let d := detect tmp_path script in
  emitted (setup_command self tmp_path script fs).2 feed 0 =
  match compile_cmd self tmp_path d (resource_file_of self tmp_path d) with
  | inl e => ([], Some e)
  | inr compile =>
      if success (feed 0) then
        match run_cmd self tmp_path d with
        | inl e => ([compile], Some e)
        | inr run => ([compile; run], None)
        end
      else ([compile], Some (CompileError (stderr (feed 0))))
  end.
Proof. intros d. rewrite setup_command_stages. apply emitted_stages. Qed.

(** C1: when the compile stage returns an unsuccessful result, the
    generator raises [CompileError] with the standard error of that stage
    and offers no further stage, and [execute_script] returns a result
    with the compile-error exit code, that standard error, an empty
    standard output and cost 0. *)
Theorem compile_failure_reported self tmp_path fs script stdin tmo cmd :
  let g := (setup_command self tmp_path script fs).2 in
  let fs0 := (setup_command self tmp_path script fs).1 in
  let r := (run_process 0 fs0 cmd tmp_path stdin tmo).2 in
  next_stage g = Some cmd ->
  success r = false ->
  accept_result g r = Raise (CompileError (stderr r))
  /\ next_stage (accept_result g r) = None
  /\ execute_script self tmp_path fs script stdin tmo
     = ret (Some {| stdout := ""; stderr := stderr r;
                    exit_code := COMPILE_ERROR_EXIT_CODE; cost := cost_of_int 0 |}).
Proof.
  intros g fs0 r Hstage Hfail.
  assert (Hacc : accept_result g r = Raise (CompileError (stderr r))).
  { subst g. rewrite setup_command_stages in *. unfold stages in *.
    destruct (compile_cmd _ _ _ _); [done|]. cbn. by rewrite Hfail. }
  split; [done|]. split; [by rewrite Hacc|].
  unfold execute_script, ScriptExecutor_execute_script.
  destruct (setup_command self tmp_path script fs) as [fs0' g'] eqn:Hsetup.
  cbn [fst snd] in *. subst g fs0.
  destruct g' as [cmd' send| |e]; try done.
  cbn in Hstage. injection Hstage as ->.
  cbn [drive].
  destruct (run_process 0 fs0' cmd tmp_path stdin tmo) as [fs1 r1] eqn:Hrun.
  cbn [snd] in r. subst r. cbn in Hacc. by rewrite Hacc.
Qed.

(** C3: a run stage that exits with a non-zero code is no error of the
    backend.  Whatever the base class returns without an exception,
    [execute_script] returns unchanged; and when the compile stage
    succeeds and the run stage is reached, the result of [execute_script]
    is the result of the run stage as the runner captured it, whatever
    its exit code. *)
Theorem run_result_passed_through self tmp_path fs script stdin tmo :
  (forall res,
     ScriptExecutor_execute_script (setup_command self) tmp_path fs script stdin tmo
     = ret res ->
     execute_script self tmp_path fs script stdin tmo = ret res)
  /\ (forall cmd cmd',
        let g := (setup_command self tmp_path script fs).2 in
        let fs0 := (setup_command self tmp_path script fs).1 in
        let compiled := run_process 0 fs0 cmd tmp_path stdin tmo in
        let ran := run_process 1 compiled.1 cmd' tmp_path stdin tmo in
        next_stage g = Some cmd ->
        success compiled.2 = true ->
        next_stage (accept_result g compiled.2) = Some cmd' ->
        execute_script self tmp_path fs script stdin tmo = ret (Some ran.2)).
Proof.
  split.
  - intros res Hres. unfold execute_script. by rewrite Hres.
  - intros cmd cmd' g fs0 compiled ran Hstage Hok Hstage'.
    unfold execute_script, ScriptExecutor_execute_script.
    subst ran compiled g fs0. revert Hstage Hok Hstage'.
    rewrite setup_command_eq. cbn [fst snd]. unfold stages.
    destruct (compile_cmd _ _ _ _) as [e|c]; [done|].
    cbn [next_stage accept_result drive]. intros [= ->].
    destruct (run_process 0 _ cmd tmp_path stdin tmo) as [fs1 r1].
    cbn [fst snd]. intros ->. cbn [negb].
    destruct (run_cmd _ _ _) as [e|c']; [done|].
    cbn [next_stage drive]. intros [= ->].
    by destruct (run_process 1 fs1 cmd' tmp_path stdin tmo).
Qed.

(** C8: [setup_command] is deterministic.  Two invocations with the same
    source text, scratch directory and limits, whatever files were there
    before and whatever the successful (or the unsuccessful) compile
    results sent to them hold, select the same dialect and source file
    name, write the same source file and emit the same compile and run
    command vectors. *)
Theorem setup_command_deterministic self tmp_path script (fs1 fs2 : files)
    (feed1 feed2 : nat -> ProcessExecuteResult) :
  success (feed1 0) = success (feed2 0) ->
  (setup_command self tmp_path script fs1).2 = (setup_command self tmp_path script fs2).2
  /\ (setup_command self tmp_path script fs1).1 !! source_file (detect tmp_path script)
     = (setup_command self tmp_path script fs2).1 !! source_file (detect tmp_path script)
  /\ (emitted (setup_command self tmp_path script fs1).2 feed1 0).1
     = (emitted (setup_command self tmp_path script fs2).2 feed2 0).1.
Proof.
  intros Hfeed. split; [by rewrite !setup_command_stages|]. split.
  - by rewrite !lookup_source_file.
  - rewrite !setup_command_stages, !emitted_stages, Hfeed.
    by repeat match goal with |- context [match ?x with _ => _ end] => destruct x end.
Qed.

(** C10 (amended): when the compiler command line, the run command line
    and the scratch directory hold no brace, the [format] calls change
    nothing and every emitted command vector is [shlex.split] of the
    plainly interpolated command string (a placeholder such as [{source}]
    in a configured command line is substituted).  When, moreover, they
    hold no quote and no backslash and the scratch directory holds a
    blank, a tab, a carriage return or a line feed, no token of either
    vector holds such a character: neither the path of the source file nor
    the class path is passed as one argument. *)
Theorem commands_split_plainly self tmp_path script fs
    (feed : nat -> ProcessExecuteResult) :
  let d := detect tmp_path script in
  let compile_string := compile_cl self tmp_path d (resource_file_of self tmp_path d) in
  let run_string := run_cl_string self tmp_path d in
  brace_free (compiler_cl self) = true ->
  brace_free (run_cl self) = true ->
  brace_free tmp_path = true ->
  emitted (setup_command self tmp_path script fs).2 feed 0
  = match Shlex.split compile_string with
    | inl e => ([], Some e)
    | inr compile =>
        if success (feed 0) then
          match Shlex.split run_string with
          | inl e => ([compile], Some e)
          | inr run => ([compile; run], None)
          end
        else ([compile], Some (CompileError (stderr (feed 0))))
    end
  /\ (no_quoting (compiler_cl self) = true ->
      no_quoting (run_cl self) = true ->
      no_quoting tmp_path = true ->
      ws_free tmp_path = false ->
      exists compile run,
        Shlex.split compile_string = ret compile
        /\ Shlex.split run_string = ret run
        /\ Forall (fun t => ws_free t = true) compile
        /\ Forall (fun t => ws_free t = true) run
        /\ (source_file d ∉ compile)
        /\ (tmp_path ∉ run)).
Proof.
  intros d compile_string run_string Hcl Hrun Htmp. split.
  - rewrite setup_command_stages, emitted_stages.
    by rewrite compile_cmd_brace_free, run_cmd_brace_free.
  - intros Qcl Qrun Qtmp Hws.
    destruct (split_tokens_ws_free compile_string) as (compile & Hc & Hcall).
    { apply all_chars_compile_cl; auto using plain_char_quoting.
      intros r. destruct (wants_guard self d); [|done]. intros [= <-].
      unfold no_quoting in Qtmp. by rewrite all_chars_app, Qtmp. }
    destruct (split_tokens_ws_free run_string) as (run & Hr & Hrall).
    { apply all_chars_run_cl_string; auto using plain_char_quoting. }
    exists compile, run. repeat split; try done.
    + apply not_in_ws_free; [|done]. subst d.
      rewrite source_file_detect. by apply ws_free_false_app.
    + by apply not_in_ws_free.
Qed.

End ExecutorProperties.

(** ** The theorems on a concrete request *)

Example detect_default : detect "/tmp/x" demo_script = java_dialect "/tmp/x".
Proof. reflexivity. Qed.

Example detect_kotlin :
  detect "/tmp/x" "fun main() { while(true) {} }" = kotlin_dialect "/tmp/x".
Proof. reflexivity. Qed.

(** [public class] at the start of the text is a class marker also when no
    blank follows it. *)
Example detect_leading_public_class :
  detect "/tmp/x" "public classy fun main" = java_dialect "/tmp/x".
Proof. reflexivity. Qed.

Example kotlin_stages :
  emitted
    (@setup_command demo_format demo_costs demo_module
       {| compiler_cl := "kotlinc"; run_cl := "java";
          timeout := Some 500%Z; memory_limit := None |}
       "/tmp/x" "fun main() { while(true) {} }" ∅).2
    (fun _ => demo_result 0 "" "") 0
  = ([["kotlinc"; "/tmp/x/Main.kt"; "-include-runtime"; "-d"; "/tmp/x/Main.jar"];
      ["java"; "-jar"; "/tmp/x/Main.jar"]], None).
Proof. vm_compute. reflexivity. Qed.

(** C2, as stated, fails: with a compiler that reports an error the compile
    stage is the only stage emitted, and the generator ends with the
    compile failure instead of two stages and a return. *)
Lemma compile_failure_single_stage :
  let stages_emitted :=
    emitted
      (@setup_command demo_format demo_costs demo_module demo_executor
         "/tmp/x" demo_script ∅).2
      (fun _ => demo_result 1 "" "Main.java:3: error: ';' expected") 0 in
  stages_emitted
  = ([["javac"; "/tmp/x/Main.java"; "/tmp/x/ResourceLimit.java"]],
     Some (CompileError "Main.java:3: error: ';' expected"))
  /\ ~ (exists compile run, stages_emitted = ([compile; run], None)).
Proof.
  assert (Hrun :
    emitted
      (@setup_command demo_format demo_costs demo_module demo_executor
         "/tmp/x" demo_script ∅).2
      (fun _ => demo_result 1 "" "Main.java:3: error: ';' expected") 0
    = ([["javac"; "/tmp/x/Main.java"; "/tmp/x/ResourceLimit.java"]],
       Some (CompileError "Main.java:3: error: ';' expected")))
    by (vm_compute; reflexivity).
  cbn zeta. split; [exact Hrun|].
  intros (compile & run & Hboth). rewrite Hrun in Hboth. discriminate.
Qed.

(** C10, as stated, fails: a [{source}] in the configured compiler command
    line is substituted by [format], so that the compile vector is not the
    split of the interpolated string; and a scratch directory that opens
    with a blank gives a source path that is one token, not several. *)
Lemma placeholder_is_substituted :
  let self := {| compiler_cl := "javac {source}"; run_cl := "java";
                 timeout := None; memory_limit := None |} in
  let g := (@setup_command demo_format demo_costs demo_module self
              "/tmp/x" demo_script ∅).2 in
  let interpolated := compile_cl self "/tmp/x" (detect "/tmp/x" demo_script) None in
  next_stage g = Some ["javac"; "/tmp/x/Main.java"; "/tmp/x/Main.java"]
  /\ Shlex.split interpolated = ret ["javac"; "{source}"; "/tmp/x/Main.java"]
  /\ ~ (exists cmd, next_stage g = Some cmd /\ Shlex.split interpolated = ret cmd)
  /\ next_stage
       (@setup_command demo_format demo_costs demo_module
          {| compiler_cl := "javac"; run_cl := "java";
             timeout := None; memory_limit := None |}
          " /tmp/x" demo_script ∅).2
     = Some ["javac"; "/tmp/x/Main.java"].
Proof.
  cbn zeta. split; [vm_compute; reflexivity|]. split; [vm_compute; reflexivity|].
  split; [|vm_compute; reflexivity].
  intros (cmd & Hstage & Hsplit). vm_compute in Hstage, Hsplit. congruence.
Qed.

Lemma compile_failure_reported_witness :
  let g := (@setup_command demo_format demo_costs demo_module demo_executor
              "/tmp/x" demo_script ∅).2 in
  let cmd := ["javac"; "/tmp/x/Main.java"; "/tmp/x/ResourceLimit.java"] in
  next_stage g = Some cmd
  /\ @success demo_costs demo_module
       (demo_result 1 "" "Main.java:3: error: ';' expected") = false
  /\ @execute_script demo_format demo_costs demo_module (demo_runner true) demo_executor
       "/tmp/x" ∅ demo_script None None
     = ret (Some (@Build_ProcessExecuteResult demo_costs
                    "" "Main.java:3: error: ';' expected" 125 0%Z)).
Proof.
  split; [vm_compute; reflexivity|]. split; [reflexivity|].
  apply (@compile_failure_reported demo_format demo_costs demo_module (demo_runner true)
           demo_executor "/tmp/x" ∅ demo_script None None
           ["javac"; "/tmp/x/Main.java"; "/tmp/x/ResourceLimit.java"]);
    vm_compute; reflexivity.
Defined.

Lemma run_result_passed_through_witness :
  @execute_script demo_format demo_costs demo_module (demo_runner false) demo_executor
    "/tmp/x" ∅ demo_script None None
  = ret (Some (demo_result 3 "partial output" "Exception in thread main")).
Proof.
  apply (proj2 (@run_result_passed_through demo_format demo_costs demo_module
                  (demo_runner false) demo_executor "/tmp/x" ∅ demo_script
                  None None)
           ["javac"; "/tmp/x/Main.java"; "/tmp/x/ResourceLimit.java"]
           ["java"; "-cp"; "/tmp/x"; "Main"]);
    vm_compute; reflexivity.
Defined.

Lemma java_source_wraps_script_witness :
  (@setup_command demo_format demo_costs demo_module demo_executor "/tmp/x" demo_script ∅).1
    !! "/tmp/x/Main.java"
  = Some (java_main_source true demo_script).
Proof.
  apply (@java_source_wraps_script demo_format demo_costs demo_module demo_executor
           "/tmp/x" demo_script ∅).
  vm_compute; reflexivity.
Defined.

Lemma guard_file_iff_witness :
  next_stage (@setup_command demo_format demo_costs demo_module demo_executor
                "/tmp/x" demo_script ∅).2
  = Some ["javac"; "/tmp/x/Main.java"; "/tmp/x/ResourceLimit.java"].
Proof.
  apply (proj2 (proj2 (proj2 (@guard_file_iff demo_format demo_costs demo_module demo_executor
                                "/tmp/x" demo_script ∅))) ["javac"]);
    reflexivity.
Defined.

Lemma setup_command_deterministic_witness :
  (emitted (@setup_command demo_format demo_costs demo_module demo_executor
              "/tmp/x" demo_script ∅).2
           (fun _ => demo_result 0 "" "") 0).1
  = (emitted (@setup_command demo_format demo_costs demo_module demo_executor
                "/tmp/x" demo_script {["/tmp/x/Main.java" := "stale"]}).2
             (fun _ => demo_result 0 "42" "warning") 0).1.
Proof.
  apply (@setup_command_deterministic demo_format demo_costs demo_module demo_executor
           "/tmp/x" demo_script ∅ {["/tmp/x/Main.java" := "stale"]}
           (fun _ => demo_result 0 "" "") (fun _ => demo_result 0 "42" "warning")).
  reflexivity.
Defined.

Lemma guard_without_timeout_witness :
  (@setup_command demo_format demo_costs demo_module
     {| compiler_cl := "javac"; run_cl := "java";
        timeout := None; memory_limit := Some 1024%Z |}
     "/tmp/x" demo_script ∅).1 !! "/tmp/x/ResourceLimit.java"
  = Some (flat (guard_header "0" "1024" ++ timeout_watchdog "0" "124"
                ++ memory_watchdog "124" ++ check_timeout "124")).
Proof.
  apply (@guard_without_timeout demo_format demo_costs demo_module
           {| compiler_cl := "javac"; run_cl := "java";
              timeout := None; memory_limit := Some 1024%Z |}
           "/tmp/x" demo_script ∅); reflexivity.
Defined.

Lemma commands_split_plainly_witness :
  exists compile run,
    Shlex.split "javac /tmp/my dir/Main.java /tmp/my dir/ResourceLimit.java" = ret compile
    /\ Shlex.split "java -cp /tmp/my dir Main" = ret run
    /\ Forall (fun t => ws_free t = true) compile
    /\ Forall (fun t => ws_free t = true) run
    /\ ("/tmp/my dir/Main.java" ∉ compile)
    /\ ("/tmp/my dir" ∉ run).
Proof.
  apply (proj2 (@commands_split_plainly demo_format demo_costs demo_module demo_executor
                  "/tmp/my dir" demo_script ∅ (fun _ => demo_result 0 "" "")
                  eq_refl eq_refl eq_refl));
    reflexivity.
Defined.


(** * Further properties of the executor *)

(** ** [shlex.quote] and [shlex.split] *)

Lemma safe_char_plain (c : ascii) :
  Shlex.is_safe c = true ->
  Shlex.is_whitespace c = false /\ Shlex.is_quote c = false /\ Shlex.is_escape c = false.
Proof. destruct c as [[] [] [] [] [] [] [] []]; vm_compute; intuition congruence. Qed.

Lemma all_safe_word (s : string) :
  Shlex.all_safe s = true -> ws_free s = true /\ no_quoting s = true.
Proof.
  unfold ws_free, no_quoting. induction s as [|c s IH]; [done|]. cbn.
  intros [Hc Hs]%andb_prop. destruct (IH Hs) as [-> ->].
  destruct (safe_char_plain c Hc) as (-> & -> & ->). done.
Qed.

(** What [shlex.quote] puts for an apostrophe. *)
Lemma split_go_single_quoted (s : string) :
  forall tok esc q,
    Shlex.split_go
      (PyStr.replace_go "'" ("'" +:+ String Shlex.dquote ("'" +:+ String Shlex.dquote "'")) 0 s
       +:+ "'")
      (Shlex.Quoted Shlex.squote) esc tok q
    = ret [tok +:+ s].
Proof.
  induction s as [|c s IH]; intros tok esc q.
  - cbn [PyStr.replace_go]. change ("" +:+ "'") with (String "'" "").
    cbn [Shlex.split_go]. change ("'" =? Shlex.squote)%char with true. cbn match.
    unfold Shlex.emit. by rewrite orb_true_r, append_nil_r.
  - cbn [PyStr.replace_go PyStr.startswith String.length Nat.sub].
    destruct (Ascii.eqb_spec "'" c) as [<-|Hne].
    + cbn. rewrite IH. unfold Shlex.snoc. by rewrite append_assoc.
    + change (String c ?x +:+ ?y) with (String c (x +:+ y)).
      cbn [Shlex.split_go].
      replace (c =? Shlex.squote)%char with false
        by (symmetry; apply Ascii.eqb_neq; intros ->; by apply Hne).
      rewrite andb_false_r, IH. unfold Shlex.snoc. by rewrite append_assoc.
Qed.

Lemma split_quote (s : string) : Shlex.split (Shlex.quote s) = ret [s].
Proof.
  unfold Shlex.quote. destruct s as [|c s]; [reflexivity|].
  destruct (Shlex.all_safe (String c s)) eqn:Hsafe.
  - destruct (all_safe_word _ Hsafe). by apply split_word.
  - unfold Shlex.split, PyStr.replace.
    change ("'" +:+ ?x +:+ "'") with (String "'" (x +:+ "'")).
    cbn [Shlex.split_go]. change (Shlex.is_whitespace "'") with false.
    change (Shlex.is_escape "'") with false. change (Shlex.is_quote "'") with true.
    cbn match. apply (split_go_single_quoted (String c s) "").
Qed.

(** X3: [shlex.split] reads what [shlex.quote] writes as one token, the
    quoted string itself, whatever characters it holds. *)
Theorem quote_split_round_trip (s : string) :
  Shlex.split (Shlex.quote s) = ret [s].
Proof. apply split_quote. Qed.

(** ** The jar of the Kotlin dialect *)

Lemma startswith_kt_suffix (x : string) :
  PyStr.startswith ".kt" (x +:+ "/Main.kt") = PyStr.startswith ".kt" x.
Proof.
  destruct x as [|a [|b [|c x]]]; cbn [String.append PyStr.startswith];
    repeat match goal with
           | |- context [if (?a =? ?b)%char then _ else _] =>
               is_var b; destruct (a =? b)%char
           end; reflexivity.
Qed.

Lemma replace_kt_absent (x : string) :
  PyStr.contains ".kt" x = false ->
  PyStr.replace_go ".kt" ".jar" 0 (x +:+ "/Main.kt") = x +:+ "/Main.jar".
Proof.
  induction x as [|c x IH]; [reflexivity|].
  cbn [PyStr.contains]. intros [Hs Hx]%orb_false_elim.
  change (String c x +:+ ?y) with (String c (x +:+ y)).
  cbn [PyStr.replace_go].
  change (String c (x +:+ "/Main.kt")) with (String c x +:+ "/Main.kt").
  rewrite startswith_kt_suffix, Hs.
  change (String c x +:+ ?y) with (String c (x +:+ y)). by rewrite IH.
Qed.

Lemma replace_kt_present (x : string) :
  PyStr.contains ".kt" x = true ->
  PyStr.replace_go ".kt" ".jar" 0 (x +:+ "/Main.kt") <> x +:+ "/Main.jar".
Proof.
  induction x as [|c x IH]; [discriminate|].
  cbn [PyStr.contains]. intros Hc.
  change (String c x +:+ ?y) with (String c (x +:+ y)).
  cbn [PyStr.replace_go].
  change (String c (x +:+ "/Main.kt")) with (String c x +:+ "/Main.kt").
  rewrite startswith_kt_suffix.
  destruct (PyStr.startswith ".kt" (String c x)) eqn:Hs.
  - destruct x as [|b x]; [discriminate|].
    cbn [PyStr.startswith] in Hs.
    destruct (Ascii.eqb_spec "." c) as [<-|]; [|discriminate].
    destruct (Ascii.eqb_spec "k" b) as [<-|]; [|discriminate].
    cbn. discriminate.
  - cbn [orb] in Hc. change (String c x +:+ ?y) with (String c (x +:+ y)).
    intros [= Heq]. by apply (IH Hc).
Qed.

(** X2: in the script-style (Kotlin) dialect the jar that the run command
    names is the jar that the compile command writes exactly when the
    scratch directory has no [.kt] in its path: [str.replace] rewrites every
    [.kt] of the source path, not only the extension. *)
Theorem jar_name_is_jar_file_iff (tmp_path : string) :
  PyStr.replace ".kt" ".jar" (source_file (kotlin_dialect tmp_path))
  = tmp_path +:+ "/Main.jar"
  <-> PyStr.contains ".kt" tmp_path = false.
Proof.
  unfold PyStr.replace. cbn [source_file kotlin_dialect]. split.
  - intros Heq. destruct (PyStr.contains ".kt" tmp_path) eqn:Hc; [|done].
    by destruct (replace_kt_present _ Hc).
  - apply replace_kt_absent.
Qed.

(** ** Dialect detection behind leading blanks *)

Lemma lstrip_all_space (w x : string) :
  all_space w = true -> PyStr.lstrip (w +:+ x) = PyStr.lstrip x.
Proof.
  induction w as [|c w IH]; [done|]. cbn [all_space].
  intros [Hc Hw]%andb_prop.
  change (String c w +:+ x) with (String c (w +:+ x)).
  cbn [PyStr.lstrip]. rewrite Hc. by apply IH.
Qed.

Lemma startswith_app (p rest : string) : PyStr.startswith p (p +:+ rest) = true.
Proof.
  induction p as [|c p IH]; [by destruct rest|].
  change (String c p +:+ rest) with (String c (p +:+ rest)).
  cbn [PyStr.startswith]. by rewrite Ascii.eqb_refl.
Qed.

(** X10: a source that opens with [public class] after leading blanks, of
    any number, is taken for the class-wrapper (Java) dialect, whatever
    follows, Kotlin markers included. *)
Theorem public_class_after_blanks (tmp_path w rest : string) :
  all_space w = true ->
  detect tmp_path (w +:+ "public class" +:+ rest) = java_dialect tmp_path.
Proof.
  intros Hw. unfold detect, PyStr.strip.
  rewrite startswith_rstrip by reflexivity.
  rewrite lstrip_all_space by done.
  change (PyStr.lstrip ("public class" +:+ rest)) with ("public class" +:+ rest).
  by rewrite startswith_app.
Qed.

(** ** [str.format] on a prefix without markup *)

Lemma format_go_app `{PyFormat.FormatFields} (kw : list (string * string)) (a s : string) :
  brace_free a = true ->
  PyFormat.format_go kw None (a +:+ s)
  = (try! r := PyFormat.format_go kw None s in ret (a +:+ r)).
Proof.
  unfold brace_free. induction a as [|c a IH].
  - intros _. change ("" +:+ s) with s. by destruct (PyFormat.format_go kw None s).
  - cbn [all_chars]. intros [Hc Ha]%andb_prop. unfold is_brace in Hc.
    apply negb_true_iff, orb_false_elim in Hc as [Hl Hr].
    change (String c a +:+ s) with (String c (a +:+ s)).
    cbn [PyFormat.format_go]. rewrite Hl, Hr, (IH Ha).
    by destruct (PyFormat.format_go kw None s).
Qed.

(** ** [shlex.split] on an apostrophe that is not closed *)

Lemma split_go_unclosed (b : string) :
  all_chars (fun c => negb (c =? Shlex.squote)%char) b = true ->
  forall esc tok q,
    Shlex.split_go b (Shlex.Quoted Shlex.squote) esc tok q
    = raise (ValueError "No closing quotation").
Proof.
  induction b as [|c b IH]; [done|]. cbn [all_chars].
  intros [Hc Hb]%andb_prop esc tok q. apply negb_true_iff in Hc.
  cbn [Shlex.split_go]. rewrite Hc, andb_false_r. by apply IH.
Qed.

Lemma split_go_apostrophe (a b : string) :
  no_quoting a = true ->
  all_chars (fun c => negb (c =? Shlex.squote)%char) b = true ->
  forall st esc tok q,
    st = Shlex.Blank \/ st = Shlex.Word ->
    Shlex.split_go (a +:+ String Shlex.squote b) st esc tok q
    = raise (ValueError "No closing quotation").
Proof.
  unfold no_quoting. intros Ha Hb. induction a as [|c a IH]; intros st esc tok q Hst.
  - change ("" +:+ ?x) with x.
    destruct Hst as [-> | ->]; cbn [Shlex.split_go];
      change (Shlex.is_whitespace Shlex.squote) with false;
      change (Shlex.is_escape Shlex.squote) with false;
      change (Shlex.is_quote Shlex.squote) with true; cbn match;
      by apply split_go_unclosed.
  - cbn [all_chars] in Ha. apply andb_prop in Ha as [Hc Ha].
    apply andb_prop in Hc as [Hq He]. apply negb_true_iff in Hq, He.
    specialize (IH Ha).
    change (String c a +:+ ?x) with (String c (a +:+ x)).
    destruct Hst as [-> | ->]; cbn [Shlex.split_go]; rewrite ?Hq, ?He;
      destruct (Shlex.is_whitespace c);
      try destruct (negb (tok =? "") || q);
      rewrite ?IH by auto; done.
Qed.

(** ** Further properties of [setup_command] *)

Lemma dom_open_w (path : string) (fs : files) : dom (open_w path fs) = {[path]} ∪ dom fs.
Proof. apply dom_insert_L. Qed.

Lemma dom_f_write (path text : string) (fs : files) : dom (f_write path text fs) = dom fs.
Proof. apply dom_alter_L. Qed.

Lemma dom_write_source_file script d resource_file fs :
  dom (write_source_file script d resource_file fs) = {[source_file d]} ∪ dom fs.
Proof.
  unfold write_source_file.
  repeat match goal with |- context [if ?b then _ else _] => destruct b end;
    rewrite ?dom_f_write; apply dom_open_w.
Qed.

Lemma detect_by_kind tmp_path s1 s2 :
  is_kotlin (detect tmp_path s1) = is_kotlin (detect tmp_path s2) ->
  detect tmp_path s1 = detect tmp_path s2.
Proof.
  by destruct (detect_cases tmp_path s1) as [-> | ->],
              (detect_cases tmp_path s2) as [-> | ->].
Qed.

Lemma format_go_source_field `{PyFormat.FormatFields} (v1 v2 rest : string) :
  PyFormat.format_go [("source", v1); ("workdir", v2)] None (" {source}" +:+ rest)
  = (try! r := PyFormat.format_go [("source", v1); ("workdir", v2)] None rest in
     ret (" " +:+ v1 +:+ r)).
Proof.
  cbn. by destruct (PyFormat.format_go _ None rest).
Qed.

Section MoreExecutorProperties.

Context `{PyFormat.FormatFields} `{CostModel} `{!ExecutorModule}.

(** X1: in the script-style (Kotlin) dialect the source file is the script
    as it is when [fun main] occurs anywhere in it, and else the script
    inside a generated [fun main() { ... }]; either way the file written
    declares a [fun main]. *)
Theorem kotlin_source_has_main self tmp_path script fs :
  is_kotlin (detect tmp_path script) = true ->
  exists content,
    (setup_command self tmp_path script fs).1 !! (tmp_path +:+ "/Main.kt") = Some content
    /\ content = (if PyStr.contains "fun main" script then script
                  else "fun main() {" +:+ nl +:+ script +:+ "}" +:+ nl)
    /\ PyStr.contains "fun main" content = true.
Proof.
  intros Hk. eexists. split; [|split; [reflexivity|]].
  - pose proof (lookup_source_file self tmp_path script fs) as Hfile.
    rewrite source_file_detect, Hk in Hfile. exact Hfile.
  - by destruct (PyStr.contains "fun main" script) eqn:Hc.
Qed.

(** X4: [setup_command] creates the source file and, when a guard is
    wanted, [ResourceLimit.java], and touches nothing else: the files
    present afterwards are those present before and these, and every other
    file keeps its content. *)
Theorem setup_command_frame self tmp_path script fs :
  let d := detect tmp_path script in
  let resource_file := tmp_path +:+ "/ResourceLimit.java" in
  dom (setup_command self tmp_path script fs).1
  = {[source_file d]} ∪ (if wants_guard self d then {[resource_file]} else ∅) ∪ dom fs
  /\ (forall path,
        path <> source_file d -> path <> resource_file ->
        (setup_command self tmp_path script fs).1 !! path = fs !! path).
Proof.
  intros d resource_file. rewrite setup_command_eq. cbn [fst]. fold d resource_file.
  split.
  - rewrite dom_write_source_file.
    destruct (wants_guard self d).
    + rewrite dom_f_write, dom_open_w. by rewrite (assoc_L (∪)).
    + by rewrite (right_id_L ∅ (∪)).
  - intros path Hsrc Hres.
    rewrite lookup_write_source_file_ne by done.
    destruct (wants_guard self d); [|done].
    by rewrite lookup_f_write_ne, lookup_open_w_ne.
Qed.

(** X5: the text of the script reaches the commands only through the
    dialect it selects: two scripts of the same dialect leave the same
    generator, hence the same compile and run vectors for every result sent,
    and the same guard file. *)
Theorem script_text_not_in_commands self tmp_path s1 s2 fs :
  is_kotlin (detect tmp_path s1) = is_kotlin (detect tmp_path s2) ->
  (setup_command self tmp_path s1 fs).2 = (setup_command self tmp_path s2 fs).2
  /\ (setup_command self tmp_path s1 fs).1 !! (tmp_path +:+ "/ResourceLimit.java")
     = (setup_command self tmp_path s2 fs).1 !! (tmp_path +:+ "/ResourceLimit.java").
Proof.
  intros Hk%detect_by_kind. split.
  - by rewrite !setup_command_stages, Hk.
  - by rewrite !lookup_resource_file, Hk.
Qed.

(** X6: when the run command line and the scratch directory need no
    quoting and the directory is not empty and has no blank, the run vector
    is the tokens of the run command line followed by [-cp], the directory
    and [Main] in the class-wrapper dialect, and by [-jar] and the jar in the
    script-style dialect (for a directory without [.kt] in its path). *)
Theorem run_cmd_tokens self tmp_path script toks :
  let d := detect tmp_path script in
  plain (run_cl self) = true ->
  plain tmp_path = true -> ws_free tmp_path = true -> tmp_path <> "" ->
  PyStr.contains ".kt" tmp_path = false ->
  Shlex.split (run_cl self) = ret toks ->
  run_cmd self tmp_path d
  = ret (toks ++ if is_kotlin d then ["-jar"; tmp_path +:+ "/Main.jar"]
                 else ["-cp"; tmp_path; "Main"])%list.
Proof.
  intros d Hcl Htmp Hws Hne Hkt Htoks. subst d.
  rewrite run_cmd_brace_free by auto using plain_brace_free.
  unfold run_cl_string.
  destruct (detect_cases tmp_path script) as [-> | ->];
    cbn [is_kotlin source_file class_name java_dialect kotlin_dialect].
  - change (run_cl self +:+ " -cp " +:+ tmp_path +:+ " " +:+ "Main")
      with (run_cl self +:+ " " +:+ "-cp" +:+ " " +:+ tmp_path +:+ " " +:+ "Main").
    rewrite (split_app _ _ _ Htoks).
    rewrite (split_app _ _ ["-cp"]) by done.
    rewrite (split_app _ _ [tmp_path])
      by (apply split_word; auto using plain_no_quoting).
    done.
  - unfold PyStr.replace. rewrite replace_kt_absent by done.
    change (run_cl self +:+ " -jar " +:+ tmp_path +:+ "/Main.jar")
      with (run_cl self +:+ " " +:+ "-jar" +:+ " " +:+ (tmp_path +:+ "/Main.jar")).
    rewrite (split_app _ _ _ Htoks).
    rewrite (split_app _ _ ["-jar"]) by done.
    rewrite split_path; done.
Qed.

(** X7: in the class-wrapper dialect without a guard, a scratch directory
    with one apostrophe in its path makes the compile command an
    unterminated quotation: the generator raises [ValueError] before any
    stage, the source file being written already. *)
Theorem apostrophe_in_tmp_path self x y script fs :
  let tmp_path := x +:+ String Shlex.squote y in
  is_kotlin (detect tmp_path script) = false ->
  wants_guard self (detect tmp_path script) = false ->
  plain (compiler_cl self) = true ->
  plain x = true ->
  brace_free y = true ->
  all_chars (fun c => negb (c =? Shlex.squote)%char) y = true ->
  (setup_command self tmp_path script fs).2
  = Raise (ValueError "No closing quotation")
  /\ (setup_command self tmp_path script fs).1 !! (tmp_path +:+ "/Main.java")
     = Some (java_main_source false script).
Proof.
  intros tmp_path Hjava Hguard Hcl Hx Hy Hq.
  assert (Hb : brace_free tmp_path = true).
  { unfold brace_free, tmp_path in *. rewrite all_chars_app.
    fold (brace_free x). rewrite (plain_brace_free _ Hx). cbn. exact Hy. }
  split.
  - rewrite setup_command_stages.
    rewrite compile_cmd_brace_free by auto using plain_brace_free.
    unfold compile_cl. rewrite Hjava, Hguard.
    pose proof (source_file_detect tmp_path script) as Hsrc.
    rewrite Hjava in Hsrc. rewrite Hsrc. unfold tmp_path.
    replace (compiler_cl self +:+ " " +:+ (x +:+ String Shlex.squote y) +:+ "/Main.java")
      with ((compiler_cl self +:+ " " +:+ x) +:+ String Shlex.squote (y +:+ "/Main.java"))
      by (rewrite !append_assoc; done).
    unfold Shlex.split. rewrite split_go_apostrophe; [done| | |by left].
    + apply plain_no_quoting. unfold plain in *.
      by rewrite !all_chars_app, Hcl, Hx.
    + by rewrite all_chars_app, Hq.
  - pose proof (lookup_source_file self tmp_path script fs) as Hfile.
    rewrite source_file_detect, Hjava, Hguard in Hfile. exact Hfile.
Qed.

(** X8: a placeholder that the step does not supply is a missing key: the
    compile step passes [source] and [workdir] only, so [{exe}] in the
    compiler command line raises [KeyError] before any stage; the run step
    passes [exe] and [workdir] only, so [{source}] in the run command line
    raises [KeyError] once the compile result is accepted, in place of the
    run stage. *)
Theorem missing_placeholder self tmp_path script fs a b :
  brace_free a = true ->
  (compiler_cl self = a +:+ "{exe}" +:+ b ->
   (setup_command self tmp_path script fs).2 = Raise (KeyError "exe"))
  /\ (run_cl self = a +:+ "{source}" +:+ b ->
      forall cmd r,
        next_stage (setup_command self tmp_path script fs).2 = Some cmd ->
        success r = true ->
        accept_result (setup_command self tmp_path script fs).2 r
        = Raise (KeyError "source")).
Proof.
  intros Ha. split.
  - intros Hcl. rewrite setup_command_stages.
    assert (Hc : forall d rf, compile_cmd self tmp_path d rf = raise (KeyError "exe")).
    { intros d rf. unfold compile_cmd, compile_cl, PyFormat.format. rewrite Hcl.
      destruct (is_kotlin d); [|destruct rf as [[|c r]|]];
        rewrite !append_assoc, format_go_app by done; reflexivity. }
    by rewrite Hc.
  - intros Hcl cmd r. rewrite setup_command_stages. unfold stages.
    destruct (compile_cmd _ _ _ _) as [e|c]; [done|].
    cbn [next_stage accept_result]. intros _ ->. cbn [negb].
    assert (Hr : forall d, run_cmd self tmp_path d = raise (KeyError "source")).
    { intros d. unfold run_cmd, run_cl_string, PyFormat.format. rewrite Hcl.
      destruct (is_kotlin d);
        rewrite !append_assoc, format_go_app by done; reflexivity. }
    by rewrite Hr.
Qed.

(** X9: the [{source}] placeholder delivers the path of the source file as
    one argument, blanks and quotes included: with a compiler command line
    that ends in [{source}], the compile vector is the tokens of the command
    line, then the source path as a single token, then the tokens of what
    [setup_command] appends itself (the path once more, unquoted, and the
    arguments after it). *)
Theorem source_placeholder_one_token self tmp_path script base toks :
  let d := detect tmp_path script in
  let resource_file :=
    if wants_guard self d then Some (tmp_path +:+ "/ResourceLimit.java") else None in
  compiler_cl self = base +:+ " {source}" ->
  brace_free base = true ->
  Shlex.split base = ret toks ->
  brace_free tmp_path = true ->
  compile_cmd self tmp_path d resource_file
  = (try! rest := Shlex.split (source_file d +:+ compile_tail tmp_path d resource_file) in
     ret (toks ++ source_file d :: rest)%list).
Proof.
  intros d resource_file Hcl Hbase Htoks Hb.
  set (tail := compile_tail tmp_path d resource_file).
  assert (Hstr : compile_cl self tmp_path d resource_file
                 = base +:+ " {source}" +:+ " " +:+ source_file d +:+ tail).
  { unfold compile_cl, tail, compile_tail. rewrite Hcl.
    destruct (is_kotlin d); [|destruct resource_file as [[|c r]|]];
      rewrite ?append_assoc, ?append_nil_r; done. }
  assert (Htail : brace_free (" " +:+ source_file d +:+ tail) = true).
  { assert (Hres : brace_free
                     match tmp_path +:+ "/ResourceLimit.java" with
                     | "" => ""
                     | String c r => " " +:+ String c r
                     end = true).
    { destruct tmp_path as [|c t]; [reflexivity|].
      change (brace_free (" " +:+ (String c t +:+ "/ResourceLimit.java")) = true).
      unfold brace_free in *. by rewrite !all_chars_app, Hb. }
    unfold tail, compile_tail, resource_file, d.
    rewrite source_file_detect. unfold brace_free in *.
    destruct (is_kotlin _); [|destruct (wants_guard self _)];
      repeat (rewrite all_chars_app); rewrite ?Hb, ?Hres; reflexivity. }
  unfold compile_cmd, PyFormat.format. rewrite Hstr, format_go_app by done.
  rewrite format_go_source_field.
  pose proof (format_brace_free (" " +:+ source_file d +:+ tail)
                [("source", Shlex.quote (source_file d));
                 ("workdir", Shlex.quote tmp_path)] Htail) as Hf.
  unfold PyFormat.format in Hf. rewrite Hf. cbn [bind ret].
  rewrite (split_app _ _ _ Htoks).
  rewrite (split_app _ _ [source_file d]) by apply split_quote.
  by destruct (Shlex.split (source_file d +:+ tail)).
Qed.

(** X11: from line 127 on, where the files have been written, a
    configuration free of braces, quotes and backslashes raises nothing:
    with such command lines and scratch directory neither [str.format] nor
    [shlex.split] fails, both command vectors are built, and after a
    successful compile result exactly two stages are emitted and the
    generator returns. *)
Theorem plain_commands_two_stages self tmp_path script
    (feed : nat -> ProcessExecuteResult) :
  let d := detect tmp_path script in
  let resource_file :=
    if wants_guard self d then Some (tmp_path +:+ "/ResourceLimit.java") else None in
  plain (compiler_cl self) = true ->
  plain (run_cl self) = true ->
  plain tmp_path = true ->
  success (feed 0) = true ->
  exists compile run,
    compile_cmd self tmp_path d resource_file = ret compile
    /\ run_cmd self tmp_path d = ret run
    /\ emitted (stages self tmp_path d (compile_cmd self tmp_path d resource_file))
         feed 0
       = ([compile; run], None).
Proof.
  intros d resource_file Hcl Hrun Htmp Hok.
  rewrite emitted_stages, Hok. subst resource_file d.
  rewrite compile_cmd_brace_free, run_cmd_brace_free by auto using plain_brace_free.
  set (d := detect tmp_path script).
  destruct (split_tokens_ws_free
              (compile_cl self tmp_path d
                 (if wants_guard self d
                  then Some (tmp_path +:+ "/ResourceLimit.java") else None)))
    as (compile & -> & _).
  { apply all_chars_compile_cl; auto using plain_char_quoting, plain_no_quoting.
    intros r. destruct (wants_guard self _); [|done].
    intros [= <-].
    pose proof (plain_no_quoting _ Htmp) as Hq. unfold no_quoting in Hq.
    by rewrite all_chars_app, Hq. }
  destruct (split_tokens_ws_free (run_cl_string self tmp_path d))
    as (run & -> & _).
  { apply all_chars_run_cl_string; auto using plain_char_quoting, plain_no_quoting. }
  by exists compile, run.
Qed.

End MoreExecutorProperties.

(** ** The further properties on concrete requests *)

Lemma jar_name_is_jar_file_iff_witness :
  PyStr.replace ".kt" ".jar" (source_file (kotlin_dialect "/tmp/x")) = "/tmp/x/Main.jar".
Proof. apply (proj2 (jar_name_is_jar_file_iff "/tmp/x")). reflexivity. Defined.

Lemma public_class_after_blanks_witness :
  detect "/tmp/x" ("   " +:+ "public class" +:+ "Kotlin { fun main() }")
  = java_dialect "/tmp/x".
Proof. apply (public_class_after_blanks "/tmp/x" "   "). reflexivity. Defined.

Lemma kotlin_source_has_main_witness :
  exists content,
    (@setup_command demo_format demo_costs demo_module demo_executor
       "/tmp/x" "println(1) // kotlin" ∅).1 !! "/tmp/x/Main.kt" = Some content
    /\ content = "fun main() {" +:+ nl +:+ "println(1) // kotlin" +:+ "}" +:+ nl
    /\ PyStr.contains "fun main" content = true.
Proof.
  apply (@kotlin_source_has_main demo_format demo_costs demo_module demo_executor
           "/tmp/x" "println(1) // kotlin" ∅).
  reflexivity.
Defined.

Lemma setup_command_frame_witness :
  (@setup_command demo_format demo_costs demo_module demo_executor
     "/tmp/x" demo_script {["/tmp/x/input.txt" := "42"]}).1 !! "/tmp/x/input.txt"
  = Some "42".
Proof.
  rewrite (proj2 (@setup_command_frame demo_format demo_costs demo_module
                    demo_executor "/tmp/x" demo_script {["/tmp/x/input.txt" := "42"]})
             "/tmp/x/input.txt"); [reflexivity| |]; vm_compute; discriminate.
Defined.

Lemma script_text_not_in_commands_witness :
  (@setup_command demo_format demo_costs demo_module demo_executor
     "/tmp/x" demo_script ∅).2
  = (@setup_command demo_format demo_costs demo_module demo_executor
       "/tmp/x" "Runtime.getRuntime().exec(args[0]);" ∅).2.
Proof.
  apply (@script_text_not_in_commands demo_format demo_costs demo_module
           demo_executor "/tmp/x" demo_script
           "Runtime.getRuntime().exec(args[0]);" ∅).
  reflexivity.
Defined.

Lemma run_cmd_tokens_witness :
  @run_cmd demo_format demo_executor "/tmp/x" (detect "/tmp/x" demo_script)
  = ret ["java"; "-cp"; "/tmp/x"; "Main"].
Proof.
  apply (@run_cmd_tokens demo_format demo_executor "/tmp/x" demo_script ["java"]);
    try reflexivity.
  discriminate.
Defined.

Lemma apostrophe_in_tmp_path_witness :
  (@setup_command demo_format demo_costs demo_module
     {| compiler_cl := "javac"; run_cl := "java";
        timeout := None; memory_limit := None |}
     "/home/o'brien/tmp" demo_script ∅).2
  = Raise (ValueError "No closing quotation").
Proof.
  apply (@apostrophe_in_tmp_path demo_format demo_costs demo_module
           {| compiler_cl := "javac"; run_cl := "java";
              timeout := None; memory_limit := None |}
           "/home/o" "brien/tmp" demo_script ∅); reflexivity.
Defined.

Lemma missing_placeholder_witness :
  (@setup_command demo_format demo_costs demo_module
     {| compiler_cl := "javac -d {exe}"; run_cl := "java";
        timeout := None; memory_limit := None |}
     "/tmp/x" demo_script ∅).2
  = Raise (KeyError "exe").
Proof.
  apply (proj1 (@missing_placeholder demo_format demo_costs demo_module
                  {| compiler_cl := "javac -d {exe}"; run_cl := "java";
                     timeout := None; memory_limit := None |}
                  "/tmp/x" demo_script ∅ "javac -d " "" eq_refl)).
  reflexivity.
Defined.

Lemma source_placeholder_one_token_witness :
  @compile_cmd demo_format
    {| compiler_cl := "javac {source}"; run_cl := "java";
       timeout := None; memory_limit := None |}
    "/tmp/my dir" (detect "/tmp/my dir" demo_script) None
  = ret ["javac"; "/tmp/my dir/Main.java"; "/tmp/my"; "dir/Main.java"].
Proof.
  exact (@source_placeholder_one_token demo_format
           {| compiler_cl := "javac {source}"; run_cl := "java";
              timeout := None; memory_limit := None |}
           "/tmp/my dir" demo_script "javac" ["javac"]
           eq_refl eq_refl eq_refl eq_refl).
Defined.

Lemma plain_commands_two_stages_witness :
  exists compile run,
    @compile_cmd demo_format demo_executor "/tmp/x" (detect "/tmp/x" demo_script)
      (Some "/tmp/x/ResourceLimit.java") = ret compile
    /\ @run_cmd demo_format demo_executor "/tmp/x" (detect "/tmp/x" demo_script)
       = ret run
    /\ emitted
         (@stages demo_format demo_costs demo_module demo_executor "/tmp/x"
            (detect "/tmp/x" demo_script)
            (@compile_cmd demo_format demo_executor "/tmp/x"
               (detect "/tmp/x" demo_script) (Some "/tmp/x/ResourceLimit.java")))
         (fun _ => demo_result 0 "" "") 0
       = ([compile; run], None).
Proof.
  apply (@plain_commands_two_stages demo_format demo_costs demo_module
           demo_executor "/tmp/x" demo_script (fun _ => demo_result 0 "" ""));
    reflexivity.
Defined.
